(** * German voice tutor backend: the request pipeline and its fallbacks

    A shallow embedding of [backend/app.py], [backend/whisper_service.py],
    [backend/ollama_client.py] and [backend/tts_service.py].

    Python text is a list of Unicode code points.  Every function of the
    backend that prints, touches the filesystem or calls an engine is a
    computation in the monad [M]: it takes the state of the world, returns
    either a value or a raised exception, and the world it leaves behind.
    What the engines and the operating system answer during one request is
    read from an [env] record. *)

From Stdlib Require Import ZArith NArith Lia Ascii String.
From stdpp Require Import base option list gmap pretty.

Local Open Scope list_scope.
Local Open Scope N_scope.

(** ** Python strings *)

Abbreviation pystr := (list N).

(** An ASCII literal of the source as code points. *)
Definition lit (s : string) : pystr :=
  map N_of_ascii (list_ascii_of_string s).

(** [str(n)] for a non-negative integer. *)
Definition str_of_nat (n : nat) : pystr := lit (pretty (N.of_nat n)).

(** The characters [str.strip()] removes: CPython's [Py_UNICODE_ISSPACE]. *)
Definition is_space (c : N) : bool :=
  ((9 <=? c) && (c <=? 13)) || ((28 <=? c) && (c <=? 32))
  || (c =? 133) || (c =? 160) || (c =? 5760)
  || ((8192 <=? c) && (c <=? 8202))
  || (c =? 8232) || (c =? 8233) || (c =? 8239) || (c =? 8287) || (c =? 12288).

Fixpoint lstrip (s : pystr) : pystr :=
  match s with
  | [] => []
  | c :: s' => if is_space c then lstrip s' else s
  end.

Definition rstrip (s : pystr) : pystr := rev (lstrip (rev s)).

Definition strip (s : pystr) : pystr := rstrip (lstrip s).

(** Truth value of a string: [if s:] holds for the non-empty ones. *)
Definition truthy (s : pystr) : bool :=
  match s with [] => false | _ :: _ => true end.

(** [s[:n]] for a non-negative [n]. *)
Definition prefix_slice (n : nat) (s : pystr) : pystr := take n s.

(** [str.title()] on ASCII letters; other characters separate words and are
    left alone.  Whisper names languages by lower-case ASCII tags. *)
Definition is_upper (c : N) : bool := (65 <=? c) && (c <=? 90).
Definition is_lower (c : N) : bool := (97 <=? c) && (c <=? 122).

Fixpoint title_from (in_word : bool) (s : pystr) : pystr :=
  match s with
  | [] => []
  | c :: s' =>
      if is_lower c then (if in_word then c else c - 32) :: title_from true s'
      else if is_upper c then (if in_word then c + 32 else c) :: title_from true s'
      else c :: title_from false s'
  end.

Definition title (s : pystr) : pystr := title_from false s.

(** ** Exceptions *)

Inductive exn_class :=
| ModuleNotFoundError | ImportError
| OSError | FileNotFoundError | PermissionError
| UnicodeDecodeError
| ConnectionError | ConnectTimeout | ReadTimeout
| JSONDecodeError | AttributeError | TypeError | RuntimeError
| Exception.

Record exn := Exn { exn_type : exn_class; exn_msg : pystr }.

(** [except ImportError] also catches its subclass. *)
Definition is_ImportError (c : exn_class) : bool :=
  match c with ModuleNotFoundError | ImportError => true | _ => false end.

(** [requests.exceptions.ConnectionError] and [requests.exceptions.Timeout];
    a connect timeout is both. *)
Definition is_ConnectionError (c : exn_class) : bool :=
  match c with ConnectionError | ConnectTimeout => true | _ => false end.

Definition is_Timeout (c : exn_class) : bool :=
  match c with ConnectTimeout | ReadTimeout => true | _ => false end.

(** [type(e).__name__] *)
Definition class_name (c : exn_class) : pystr :=
  match c with
  | ModuleNotFoundError => lit "ModuleNotFoundError"
  | ImportError => lit "ImportError"
  | OSError => lit "OSError"
  | FileNotFoundError => lit "FileNotFoundError"
  | PermissionError => lit "PermissionError"
  | UnicodeDecodeError => lit "UnicodeDecodeError"
  | ConnectionError => lit "ConnectionError"
  | ConnectTimeout => lit "ConnectTimeout"
  | ReadTimeout => lit "ReadTimeout"
  | JSONDecodeError => lit "JSONDecodeError"
  | AttributeError => lit "AttributeError"
  | TypeError => lit "TypeError"
  | RuntimeError => lit "RuntimeError"
  | Exception => lit "Exception"
  end.

Inductive result (A : Type) :=
| Ok (a : A)
| Raise (e : exn).
Arguments Ok {A} a.
Arguments Raise {A} e.

(** ** The world *)

(** One entry of the history file.  [json.dumps] writes a record on a line of
    its own and [json.loads] reads it back; a line can also be blank or hold
    something that does not parse.  The file is a log of whole lines: each
    line, the last one too, ends with a line end, which is how every write of
    the handler leaves the file. *)
Record conversation := Conversation {
  c_timestamp : pystr;
  c_topic : pystr;
  c_user_text : pystr;
  c_reply_text : pystr;
  c_tts_file : option pystr
}.

Inductive hist_line :=
| RecordLine (c : conversation)
| BlankLine
| BadLine (e : exn).

Inductive tts_backend := Offline | Networked.

Record world := World {
  files : gmap pystr (list N);       (* regular files, path to content *)
  history : option (list hist_line); (* data/history/conversations.jsonl *)
  stdout : list pystr;               (* what print() wrote, oldest first *)
  tracebacks : list exn;             (* traceback.print_exc() *)
  tts_calls : list tts_backend       (* engine invocations, oldest first *)
}.

Definition set_files (f : gmap pystr (list N)) (w : world) : world :=
  World f (history w) (stdout w) (tracebacks w) (tts_calls w).
Definition set_history (h : option (list hist_line)) (w : world) : world :=
  World (files w) h (stdout w) (tracebacks w) (tts_calls w).
Definition add_stdout (s : pystr) (w : world) : world :=
  World (files w) (history w) (stdout w ++ [s]) (tracebacks w) (tts_calls w).
Definition add_traceback (e : exn) (w : world) : world :=
  World (files w) (history w) (stdout w) (tracebacks w ++ [e]) (tts_calls w).
Definition add_tts_call (b : tts_backend) (w : world) : world :=
  World (files w) (history w) (stdout w) (tracebacks w) (tts_calls w ++ [b]).

(** ** The monad of effectful code *)

Definition M (A : Type) : Type := world -> result A * world.

Definition ret {A} (a : A) : M A := fun w => (Ok a, w).

Definition raise {A} (e : exn) : M A := fun w => (Raise e, w).

Definition bind {A B} (m : M A) (k : A -> M B) : M B :=
  fun w =>
    match m w with
    | (Ok a, w') => k a w'
    | (Raise e, w') => (Raise e, w')
    end.

(** [try: body / except Exception as e: handler e] *)
Definition try_except {A} (body : M A) (handler : exn -> M A) : M A :=
  fun w =>
    match body w with
    | (Ok a, w') => (Ok a, w')
    | (Raise e, w') => handler e w'
    end.

Notation "x <- m ;; k" := (bind m (fun x => k))
  (at level 100, m at next level, right associativity).
Notation "m ;; k" := (bind m (fun _ => k))
  (at level 100, right associativity).

Definition print (s : pystr) : M unit := fun w => (Ok tt, add_stdout s w).

(** ** Operating system *)

Definition os_path_exists (p : pystr) : M bool :=
  fun w => (Ok (bool_decide (is_Some (files w !! p))), w).

Definition os_path_getsize (p : pystr) : M nat :=
  fun w =>
    match files w !! p with
    | Some c => (Ok (length c), w)
    | None => (Raise (Exn FileNotFoundError p), w)
    end.

Definition os_unlink (p : pystr) : M unit :=
  fun w =>
    match files w !! p with
    | Some _ => (Ok tt, set_files (delete p (files w)) w)
    | None => (Raise (Exn FileNotFoundError p), w)
    end.

Definition write_file (p : pystr) (c : list N) : M unit :=
  fun w => (Ok tt, set_files (<[p := c]> (files w)) w).

(** ** What the engines and the system answer during a request *)

(** The dictionary [model.transcribe] returns. *)
Record whisper_result := WhisperResult {
  wr_text : pystr;               (* result["text"] *)
  wr_language : option pystr     (* result.get("language") *)
}.

(** The decoded body of the generation engine's answer, as far as
    [ask_ollama] looks at it. *)
Inductive payload :=
| HasResponse (v : result pystr)  (* result["response"].strip(), or the error of
                                     that call when the value is not a string *)
| NoResponse (shown : pystr)      (* no "response" key; [shown] is the payload as
                                     the f-string prints it *)
| NotAContainer (e : exn).        (* the test ["response" not in result] raises *)

Record http_response := HttpResponse {
  status_code : nat;
  text : pystr;
  json : result payload          (* response.json() *)
}.

Record env := Env {
  (* app.py *)
  NamedTemporaryFile : result pystr;  (* the name of the scratch file created *)
  temp_audio_write : option exn;      (* [None]: the upload was written *)
  system_prompt_read : list N -> result pystr;
    (* lines 55-57 on a prompt file that is there, by what it holds: the
       text read, or what reaching, opening or decoding the file raises *)
  now_strftime : pystr;               (* datetime.now().strftime('%Y%m%d_%H%M%S') *)
  now_isoformat : pystr;              (* datetime.now().isoformat() *)
  history_append : option exn;        (* [None]: the history file opened and took the line *)
  (* whisper_service.py *)
  import_whisper : option exn;
  load_model : option exn;
  model_transcribe : list N -> result whisper_result;  (* by audio content *)
  (* ollama_client.py *)
  requests_post : pystr -> result http_response;       (* by prompt *)
  (* tts_service.py *)
  PYTTSX3_AVAILABLE : bool;
  EDGE_TTS_AVAILABLE : bool;
  mkdir : option exn;
  pyttsx3_run : nat -> option exn;    (* the n-th run of the offline engine, from 0 *)
  edge_tts_run : option exn;
  synthesized : list N                (* the audio an engine writes when it succeeds *)
}.

(** ** whisper_service.py *)

Definition no_speech : pystr := lit "[Kein Audio erkannt]".

Definition run_import_whisper (e : env) : M unit :=
  match import_whisper e with Some ex => raise ex | None => ret tt end.

Definition whisper_load_model (e : env) : M unit :=
  match load_model e with Some ex => raise ex | None => ret tt end.

Definition whisper_transcribe (e : env) (audio_file_path : pystr) : M whisper_result :=
  fun w =>
    match files w !! audio_file_path with
    | None => (Raise (Exn FileNotFoundError audio_file_path), w)
    | Some audio =>
        match model_transcribe e audio with
        | Ok r => (Ok r, w)
        | Raise ex => (Raise ex, w)
        end
    end.

Definition _transcribe_with_library (e : env) (audio_file_path model_size : pystr) : M pystr :=
  try_except
    (run_import_whisper e ;;
     print (lit "Whisper library imported successfully") ;;
     found <- os_path_exists audio_file_path ;;
     if negb found then
       raise (Exn Exception (lit "Audio file not found: " ++ audio_file_path))
     else
       file_size <- os_path_getsize audio_file_path ;;
       print (lit "Audio file size: " ++ str_of_nat file_size ++ lit " bytes") ;;
       if Nat.eqb file_size 0 then
         raise (Exn Exception (lit "Audio file is empty"))
       else
         print (lit "Loading Whisper model: tiny (optimized for speed)") ;;
         whisper_load_model e ;;
         print (lit "Starting transcription of: " ++ audio_file_path) ;;
         result <- whisper_transcribe e audio_file_path ;;
         let transcribed_text := strip (wr_text result) in
         let detected_language := default (lit "unknown") (wr_language result) in
         print (lit "Detected language: " ++ title detected_language) ;;
         print (lit "Transcription completed. Language: " ++ detected_language
                ++ lit ", Text: '" ++ transcribed_text ++ lit "' (length: "
                ++ str_of_nat (length transcribed_text) ++ lit ")") ;;
         if negb (truthy transcribed_text) then ret no_speech
         else ret transcribed_text)
    (fun ex =>
       if is_ImportError (exn_type ex) then
         raise (Exn Exception (lit "Cannot import whisper library: " ++ exn_msg ex))
       else
         print (lit "Library transcription error: " ++ exn_msg ex) ;;
         raise (Exn Exception (lit "Library transcription error: " ++ exn_msg ex))).

(** The [try] block of [transcribe_audio]: [Some r] when it returns [r],
    [None] when control falls out of it. *)
Definition transcribe_audio_try (e : env) (audio_file_path : pystr) : M (option pystr) :=
  result <- _transcribe_with_library e audio_file_path (lit "tiny") ;;
  if truthy result then
    print (lit "Library transcription successful: " ++ prefix_slice 100 result ++ lit "...") ;;
    ret (Some result)
  else ret None.

Definition transcribe_audio (e : env) (audio_file_path : pystr) : M pystr :=
  print (lit "Attempting to transcribe: " ++ audio_file_path) ;;
  returned <- try_except
    (transcribe_audio_try e audio_file_path)
    (fun lib_error =>
       print (lit "Library transcription failed: " ++ exn_msg lib_error) ;;
       ret (Some [])) ;;
  match returned with
  | Some r => ret r
  | None => ret []
  end.

(** ** ollama_client.py *)

Definition ask_ollama (e : env) (prompt : pystr) : M pystr :=
  try_except
    (match requests_post e prompt with
     | Raise ex => raise ex
     | Ok response =>
         if negb (Nat.eqb (status_code response) 200) then
           raise (Exn Exception (lit "Ollama API error: " ++ str_of_nat (status_code response)
                                 ++ lit " - " ++ text response))
         else
           match json response with
           | Raise ex => raise ex
           | Ok (NotAContainer ex) => raise ex
           | Ok (NoResponse shown) =>
               raise (Exn Exception (lit "Invalid response format: " ++ shown))
           | Ok (HasResponse (Raise ex)) => raise ex
           | Ok (HasResponse (Ok s)) => ret (strip s)
           end
     end)
    (fun ex =>
       if is_ConnectionError (exn_type ex) then
         raise (Exn Exception
           (lit "Cannot connect to Ollama. Make sure Ollama is running on localhost:11434"))
       else if is_Timeout (exn_type ex) then
         raise (Exn Exception
           (lit "Ollama request timed out. Try a shorter prompt or different model."))
       else
         raise (Exn Exception (lit "Ollama client error: " ++ exn_msg ex))).

(** ** tts_service.py *)

Definition is_offline (b : tts_backend) : bool :=
  match b with Offline => true | Networked => false end.

Definition offline_runs (w : world) : nat :=
  length (List.filter is_offline (tts_calls w)).

(** [Path(output_path).parent.mkdir(parents=True, exist_ok=True)] *)
Definition make_parent_dir (e : env) : M unit :=
  match mkdir e with Some ex => raise ex | None => ret tt end.

(** One run of the offline engine inside the executor. *)
Definition _pyttsx3_save (e : env) (text output_path : pystr) : M unit :=
  fun w =>
    let n := offline_runs w in
    let w1 := add_tts_call Offline w in
    match pyttsx3_run e n with
    | Some ex => (Raise ex, w1)
    | None => write_file output_path (synthesized e) w1
    end.

Definition _edge_tts_save (e : env) (text output_path voice : pystr) : M unit :=
  fun w =>
    let w1 := add_tts_call Networked w in
    match edge_tts_run e with
    | Some ex => (Raise ex, w1)
    | None => write_file output_path (synthesized e) w1
    end.

Definition save_tts_audio (e : env) (text output_path voice : pystr)
    (prefer_offline : bool) : M unit :=
  make_parent_dir e ;;
  returned <-
    (if prefer_offline && PYTTSX3_AVAILABLE e then
       try_except
         (_pyttsx3_save e text output_path ;; ret true)
         (fun ex =>
            print (lit "Offline TTS save failed, trying online: " ++ exn_msg ex) ;;
            ret false)
     else ret false) ;;
  if (returned : bool) then ret tt
  else if EDGE_TTS_AVAILABLE e then
    try_except
      (_edge_tts_save e text output_path voice)
      (fun ex =>
         print (lit "Online TTS save failed: " ++ exn_msg ex) ;;
         if PYTTSX3_AVAILABLE e then _pyttsx3_save e text output_path
         else raise ex)
  else if PYTTSX3_AVAILABLE e then _pyttsx3_save e text output_path
  else raise (Exn Exception (lit "No TTS engine available")).

Definition default_voice : pystr := lit "de-DE-KatjaNeural".

(** ** app.py *)

Record request := Request {
  audio_filename : option pystr;   (* audio.filename *)
  audio_content : list N;          (* await audio.read() *)
  form_topic : option pystr        (* the form field "topic", when sent *)
}.

(** [topic: str = Form(default="general conversation")]: the default stands
    in for a field that was not sent and, as the framework has it for form
    fields, for one sent empty. *)
Definition req_topic (rq : request) : pystr :=
  match form_topic rq with
  | None | Some [] => lit "general conversation"
  | Some t => t
  end.

Record chat_reply := ChatReply {
  user_text : pystr;
  reply_text : pystr;
  tts_url : option pystr;
  topic : pystr
}.

Inductive response :=
| JSONResponse (status : nat) (error : pystr)  (* content={"error": error} *)
| Reply (r : chat_reply)                       (* a returned dict: status 200 *)
| Conversations (l : list conversation).       (* {"conversations": l}: status 200 *)

Definition status_of (r : response) : nat :=
  match r with
  | JSONResponse s _ => s
  | Reply _ | Conversations _ => 200%nat
  end.

(** How an f-string shows an optional string. *)
Definition show_opt (o : option pystr) : pystr := default (lit "None") o.

Definition system_prompt_path : pystr := lit "backend/prompts/system_prompt.txt".

Definition default_system_prompt : pystr :=
  lit "You are a helpful German tutor. Respond in German.".

(** The reply used when the generation engine fails; 252 is u-umlaut. *)
Definition fallback_reply (user_text : pystr) : pystr :=
  lit "Ich habe verstanden: '" ++ user_text
  ++ lit "'. Das ist interessant! (Ollama ist nicht verf" ++ [252] ++ lit "gbar)".

Definition full_prompt (system_prompt topic user_text : pystr) : pystr :=
  system_prompt ++ [10; 10] ++ lit "Topic: " ++ topic ++ [10]
  ++ lit "User: " ++ user_text ++ [10] ++ lit "Tutor:".

(** The [with tempfile.NamedTemporaryFile(delete=False, suffix=".wav")] block:
    the file is created, the upload written to it, and the file closed; it is
    not deleted when the block is left, whichever way.  The upload itself has
    been received by the framework before the handler runs, and reading it is
    taken to succeed. *)
Definition save_upload (e : env) (rq : request) : M pystr :=
  match NamedTemporaryFile e with
  | Raise ex => raise ex
  | Ok name =>
      write_file name [] ;;
      match temp_audio_write e with
      | Some ex => raise ex
      | None => write_file name (audio_content rq) ;; ret name
      end
  end.

(** Lines 25-32: save the uploaded audio. *)
Definition receiving_audio (e : env) (rq : request) : M pystr :=
  temp_audio_path <- save_upload e rq ;;
  print (lit "Audio uploaded: " ++ show_opt (audio_filename rq) ++ lit ", size: "
         ++ str_of_nat (length (audio_content rq)) ++ lit " bytes") ;;
  print (lit "Temp file created: " ++ temp_audio_path) ;;
  ret temp_audio_path.

(** The [try] block of lines 36-37. *)
Definition transcribing_try (e : env) (temp_audio_path : pystr) : M pystr :=
  user_text <- transcribe_audio e temp_audio_path ;;
  print (lit "Transcription successful: " ++ prefix_slice 100 user_text ++ lit "...") ;;
  ret user_text.

(** Lines 34-45: transcribe, and remove the scratch file. *)
Definition transcribing (e : env) (temp_audio_path : pystr) : M pystr :=
  user_text <- try_except
    (transcribing_try e temp_audio_path)
    (fun transcription_error =>
       print (lit "Transcription failed with error: " ++ exn_msg transcription_error) ;;
       os_unlink temp_audio_path ;;
       raise transcription_error) ;;
  os_unlink temp_audio_path ;;
  ret user_text.

(** [with open(p, 'r', encoding='utf-8') as f: f.read()] on the prompt
    file. *)
Definition open_and_read (e : env) (p : pystr) : M pystr :=
  fun w =>
    match files w !! p with
    | None => (Raise (Exn FileNotFoundError p), w)
    | Some content =>
        match system_prompt_read e content with
        | Ok s => (Ok s, w)
        | Raise ex => (Raise ex, w)
        end
    end.

(** Lines 53-59: the prompt of the file when there is one, which raises when
    the file cannot be opened or decoded, and the built-in prompt otherwise. *)
Definition read_system_prompt (e : env) : M pystr :=
  found <- os_path_exists system_prompt_path ;;
  if (found : bool) then open_and_read e system_prompt_path
  else ret default_system_prompt.

(** Lines 53-71: build the prompt and ask the generation engine. *)
Definition generating (e : env) (topic user_text : pystr) : M pystr :=
  system_prompt <- read_system_prompt e ;;
  try_except
    (reply_text <- ask_ollama e (full_prompt system_prompt topic user_text) ;;
     print (lit "LLM response successful: " ++ prefix_slice 100 reply_text ++ lit "...") ;;
     ret reply_text)
    (fun llm_error =>
       print (lit "LLM request failed: " ++ exn_msg llm_error) ;;
       ret (fallback_reply user_text)).

Definition tts_filename_of (e : env) : pystr :=
  lit "reply_" ++ now_strftime e ++ lit ".wav".

Definition tts_path_of (e : env) : pystr := lit "data/audio/" ++ tts_filename_of e.

(** Lines 73-84: synthesize the reply; the file name and the URL, or nothing. *)
Definition synthesizing (e : env) (reply_text : pystr) : M (option pystr * option pystr) :=
  try_except
    (let tts_filename := tts_filename_of e in
     let tts_path := tts_path_of e in
     save_tts_audio e reply_text tts_path default_voice true ;;
     print (lit "TTS generation successful: " ++ tts_filename) ;;
     ret (Some tts_filename, Some (lit "/audio/" ++ tts_filename)))
    (fun tts_error =>
       print (lit "TTS generation failed: " ++ exn_msg tts_error) ;;
       ret (None, None)).

(** [open(history_file, 'a')] and the write of one line, at the end of a log
    of whole lines. *)
Definition append_history (e : env) (c : conversation) : M unit :=
  fun w =>
    match history_append e with
    | Some ex => (Raise ex, w)
    | None => (Ok tt, set_history (Some (default [] (history w) ++ [RecordLine c])) w)
    end.

(** Lines 86-102: save the conversation. *)
Definition logging (e : env) (topic user_text reply_text : pystr)
    (tts_filename : option pystr) : M unit :=
  try_except
    (let conversation :=
       Conversation (now_isoformat e) topic user_text reply_text tts_filename in
     append_history e conversation ;;
     print (lit "Conversation saved to history"))
    (fun history_error =>
       print (lit "Failed to save conversation history: " ++ exn_msg history_error)).

(** The body of the outer [try] of [voice_chat]. *)
Definition voice_chat_try (e : env) (rq : request) : M response :=
  temp_audio_path <- receiving_audio e rq ;;
  user_text <- transcribing e temp_audio_path ;;
  if negb (truthy (strip user_text)) then
    ret (JSONResponse 400 (lit "Could not transcribe audio"))
  else
    reply_text <- generating e (req_topic rq) user_text ;;
    tts <- synthesizing e reply_text ;;
    logging e (req_topic rq) user_text reply_text (fst tts) ;;
    print (lit "Returning successful response: user_text='" ++ user_text
           ++ lit "', reply_text='" ++ prefix_slice 50 reply_text
           ++ lit "...', tts_url='" ++ show_opt (snd tts) ++ lit "'") ;;
    ret (Reply (ChatReply user_text reply_text (snd tts) (req_topic rq))).

(** POST /api/v1/voice/chat *)
Definition voice_chat (e : env) (rq : request) (w : world) : response * world :=
  match voice_chat_try e rq w with
  | (Ok r, w') => (r, w')
  | (Raise ex, w') =>
      let w1 := add_stdout (lit "Request processing failed with error: " ++ exn_msg ex) w' in
      let w2 := add_stdout (lit "Error type: " ++ class_name (exn_type ex)) w1 in
      let w3 := add_traceback ex w2 in
      (JSONResponse 500 (lit "Processing failed: " ++ exn_msg ex), w3)
  end.

(** [lines[start:]] *)
Definition slice_from {A} (start : Z) (l : list A) : list A :=
  let n := Z.of_nat (length l) in
  let s := if (start <? 0)%Z then Z.max 0 (start + n) else Z.min start n in
  drop (Z.to_nat s) l.

(** The loop of lines 135-137 over the lines read. *)
Fixpoint load_lines (lines : list hist_line) : result (list conversation) :=
  match lines with
  | [] => Ok []
  | BlankLine :: rest => load_lines rest
  | BadLine ex :: _ => Raise ex
  | RecordLine c :: rest =>
      match load_lines rest with
      | Ok cs => Ok (c :: cs)
      | Raise ex => Raise ex
      end
  end.

(** The body of [get_history] for a given [limit].  A history file that exists
    is taken to be readable. *)
Definition get_history_for (limit : Z) (w : world) : response :=
  match history w with
  | None => Conversations []
  | Some lines =>
      match load_lines (slice_from (- limit) lines) with
      | Ok conversations => Conversations conversations
      | Raise ex => JSONResponse 500 (lit "Failed to get history: " ++ exn_msg ex)
      end
  end.

(** GET /api/v1/history, with [limit: int = 10] read from the query. *)
Definition get_history (limit : option Z) (w : world) : response :=
  get_history_for (default 10%Z limit) w.

(** ** Vocabulary of the statements *)

(** A computation leaves an observation [f] of the world as it found it. *)
Definition keeps {X A} (f : world -> X) (m : M A) : Prop :=
  forall w, f (snd (m w)) = f w.

(** A computation returns: it raises nothing. *)
Definition returns {A} (m : M A) : Prop :=
  forall w, exists a w', m w = (Ok a, w').

(** The records of the history file, none when the file does not exist. *)
Definition records (w : world) : list hist_line := default [] (history w).

(** The ways the transcription engine fails on an audio clip, after the
    words "missing engine, decode error, or empty recognition result"; an
    empty clip and a model that does not load are failures of the same kind
    as a decode error. *)
Inductive engine_fault :=
| MissingEngine
| EmptyClip
| ModelLoadError
| DecodeError
| EmptyRecognition.

Definition engine_fault_of (e : env) (audio : list N) : option engine_fault :=
  match import_whisper e with
  | Some _ => Some MissingEngine
  | None =>
      match audio with
      | [] => Some EmptyClip
      | _ :: _ =>
          match load_model e with
          | Some _ => Some ModelLoadError
          | None =>
              match model_transcribe e audio with
              | Raise _ => Some DecodeError
              | Ok r => if truthy (strip (wr_text r)) then None else Some EmptyRecognition
              end
          end
      end
  end.

(** What [transcribe_audio] returns on each failure. *)
Definition fault_transcript (k : engine_fault) : pystr :=
  match k with
  | EmptyRecognition => no_speech
  | _ => []
  end.

(** The state in which [transcribe_audio] calls the library. *)
Definition at_library_call (p : pystr) (w : world) : world :=
  add_stdout (lit "Attempting to transcribe: " ++ p) w.

(** The handler's stages up to the text it continues with, and the world
    at that point; [None] when a stage raised. *)
Definition transcribed (e : env) (rq : request) (w : world) : option (pystr * world) :=
  match receiving_audio e rq w with
  | (Ok p, w1) =>
      match transcribing e p w1 with
      | (Ok T, w2) => Some (T, w2)
      | (Raise _, _) => None
      end
  | (Raise _, _) => None
  end.

(** The text the transcription stage produced for a request. *)
Definition transcript (e : env) (rq : request) (w : world) : option pystr :=
  fst <$> transcribed e rq w.

(** The outcome of reading the system prompt, lines 53-59, for a request
    that gets there: one whose transcript is not blank. *)
Definition prompt_read (e : env) (rq : request) (w : world) : option (result pystr) :=
  match transcribed e rq w with
  | Some (T, w2) =>
      if truthy (strip T) then Some (fst (read_system_prompt e w2)) else None
  | None => None
  end.

(** The outcome of the call [ask_ollama(full_prompt)] a request makes, when it
    makes one. *)
Definition generation (e : env) (rq : request) (w : world) : option (result pystr) :=
  match transcribed e rq w with
  | Some (T, w2) =>
      if truthy (strip T) then
        match read_system_prompt e w2 with
        | (Ok system_prompt, w3) =>
            Some (fst (ask_ollama e (full_prompt system_prompt (req_topic rq) T) w3))
        | (Raise _, _) => None
        end
      else None
  | None => None
  end.

(** The reply the handler goes on with: the engine's, or the fallback. *)
Definition reply_of (e : env) (rq : request) (w : world) (T : pystr) : pystr :=
  match generation e rq w with
  | Some (Ok r) => r
  | _ => fallback_reply T
  end.

(** The outcome of the call [save_tts_audio(reply_text, tts_path)] a request
    makes, when it makes one. *)
Definition synthesis (e : env) (rq : request) (w : world) : option (result unit) :=
  match transcribed e rq w with
  | Some (T, w2) =>
      if truthy (strip T) then
        match generating e (req_topic rq) T w2 with
        | (Ok R, w3) => Some (fst (save_tts_audio e R (tts_path_of e) default_voice true w3))
        | (Raise _, _) => None
        end
      else None
  | None => None
  end.

(** What is at a path. *)
Definition at_path (q : pystr) (w : world) : option (list N) := files w !! q.

(** The conversations an answer of the history endpoint carries. *)
Definition conversations_of (r : response) : list conversation :=
  match r with
  | Conversations l => l
  | _ => []
  end.


(** An engine run that raised nothing. *)
Definition succeeded (o : option exn) : bool :=
  match o with None => true | Some _ => false end.

(** The engines [save_tts_audio] runs with [prefer_offline], in order, and
    whether the last of them succeeded: the offline engine first when it is
    installed; when that did not succeed, the networked engine when it is
    installed; when that did not succeed either, the offline engine, again
    when it is installed.  [n] counts the offline runs made before. *)
Definition synthesis_plan (e : env) (n : nat) : list tts_backend * bool :=
  let first := if PYTTSX3_AVAILABLE e then Some (pyttsx3_run e n) else None in
  match first with
  | Some None => ([Offline], true)
  | _ =>
      let tried := match first with Some _ => [Offline] | None => [] end in
      let second := if EDGE_TTS_AVAILABLE e then Some (edge_tts_run e) else None in
      match second with
      | Some None => (tried ++ [Networked], true)
      | _ =>
          let tried := tried ++ match second with Some _ => [Networked] | None => [] end in
          if PYTTSX3_AVAILABLE e
          then (tried ++ [Offline],
                succeeded (pyttsx3_run e (n + length (List.filter is_offline tried))))
          else (tried, false)
      end
  end.

(** The URL in the answer and the file name in the record, by the outcome of
    the synthesis call. *)
Definition tts_url_of (e : env) (s : option (result unit)) : option pystr :=
  match s with
  | Some (Ok _) => Some (lit "/audio/" ++ tts_filename_of e)
  | _ => None
  end.

Definition tts_file_of (e : env) (s : option (result unit)) : option pystr :=
  match s with
  | Some (Ok _) => Some (tts_filename_of e)
  | _ => None
  end.

(** What the synthesis side of a request's surroundings answers. *)
Record tts_env := TtsEnv {
  t_offline : bool;
  t_networked : bool;
  t_mkdir : option exn;
  t_pyttsx3_run : nat -> option exn;
  t_edge_tts_run : option exn;
  t_synthesized : list N
}.

(** The same surroundings with another synthesis side. *)
Definition with_tts (t : tts_env) (e : env) : env :=
  Env (NamedTemporaryFile e) (temp_audio_write e) (system_prompt_read e)
    (now_strftime e) (now_isoformat e)
    (history_append e) (import_whisper e) (load_model e) (model_transcribe e)
    (requests_post e)
    (t_offline t) (t_networked t) (t_mkdir t) (t_pyttsx3_run t) (t_edge_tts_run t)
    (t_synthesized t).

(** ** Sample requests and surroundings *)

Module Sample.

(** Nothing on disk, nothing printed. *)
Definition nowhere : world := World ∅ None [] [] [].

(** A short clip uploaded under the topic "shopping". *)
Definition clip : request :=
  Request (Some (lit "clip.wav")) [82; 73; 70; 70; 36; 0; 0; 0] (Some (lit "shopping")).

Definition scratch : pystr := lit "/tmp/tmpk3v9x1qz.wav".

Definition both_engines : tts_env := TtsEnv true true None (fun _ => None) None [82; 73; 70; 70].

Definition no_engine : tts_env := TtsEnv false false None (fun _ => None) None [].

(** The offline engine fails on its first run and works on the next; the
    networked engine is not installed. *)
Definition offline_recovers : tts_env :=
  TtsEnv true false None
    (fun n => match n with
              | O => Some (Exn RuntimeError (lit "run loop already started"))
              | S _ => None
              end)
    None [82; 73; 70; 70].

(** Every engine works: the clip is heard as "Hallo". *)
Definition all_well : env :=
  Env (Ok scratch) None Ok (lit "20240101_000000") (lit "2024-01-01T00:00:00") None
    None None
    (fun _ => Ok (WhisperResult (lit " Hallo") (Some (lit "de"))))
    (fun _ => Ok (HttpResponse 200 [] (Ok (HasResponse (Ok (lit "Was willst du kaufen?"))))))
    true true None (fun _ => None) None [82; 73; 70; 70].

Definition with_whisper (i : option exn) (t : list N -> result whisper_result)
    (e : env) : env :=
  Env (NamedTemporaryFile e) (temp_audio_write e) (system_prompt_read e)
    (now_strftime e) (now_isoformat e)
    (history_append e) i (load_model e) t (requests_post e)
    (PYTTSX3_AVAILABLE e) (EDGE_TTS_AVAILABLE e) (mkdir e) (pyttsx3_run e)
    (edge_tts_run e) (synthesized e).

Definition with_requests_post (f : pystr -> result http_response) (e : env) : env :=
  Env (NamedTemporaryFile e) (temp_audio_write e) (system_prompt_read e)
    (now_strftime e) (now_isoformat e)
    (history_append e) (import_whisper e) (load_model e) (model_transcribe e) f
    (PYTTSX3_AVAILABLE e) (EDGE_TTS_AVAILABLE e) (mkdir e) (pyttsx3_run e)
    (edge_tts_run e) (synthesized e).


Definition with_temp_audio_write (a : option exn) (e : env) : env :=
  Env (NamedTemporaryFile e) a (system_prompt_read e) (now_strftime e) (now_isoformat e)
    (history_append e) (import_whisper e) (load_model e) (model_transcribe e)
    (requests_post e)
    (PYTTSX3_AVAILABLE e) (EDGE_TTS_AVAILABLE e) (mkdir e) (pyttsx3_run e)
    (edge_tts_run e) (synthesized e).

Definition with_system_prompt_read (f : list N -> result pystr) (e : env) : env :=
  Env (NamedTemporaryFile e) (temp_audio_write e) f (now_strftime e) (now_isoformat e)
    (history_append e) (import_whisper e) (load_model e) (model_transcribe e)
    (requests_post e)
    (PYTTSX3_AVAILABLE e) (EDGE_TTS_AVAILABLE e) (mkdir e) (pyttsx3_run e)
    (edge_tts_run e) (synthesized e).

(** The engine hears nothing in the clip. *)
Definition silence : env :=
  with_whisper None (fun _ => Ok (WhisperResult (lit "  ") (Some (lit "de")))) all_well.

(** The whisper package is not installed. *)
Definition whisper_missing : env :=
  with_whisper (Some (Exn ModuleNotFoundError (lit "No module named 'whisper'")))
    (fun _ => Ok (WhisperResult [] None)) all_well.

(** The generation engine is not running. *)
Definition ollama_down : env :=
  with_requests_post (fun _ => Raise (Exn ConnectionError (lit "Connection refused"))) all_well.

(** No synthesis engine is installed. *)
Definition mute : env := with_tts no_engine all_well.



(** The disk is full: the scratch file is created and cannot be written. *)
Definition disk_full : env :=
  with_temp_audio_write (Some (Exn OSError (lit "[Errno 28] No space left on device")))
    all_well.

(** The system prompt file is there, and the server may not read it. *)
Definition prompt_on_disk : world :=
  World {[ system_prompt_path := lit "Du bist ein geduldiger Deutschlehrer." ]} None [] [] [].

Definition prompt_unreadable : env :=
  with_system_prompt_read
    (fun _ => Raise (Exn PermissionError
       (lit "[Errno 13] Permission denied: 'backend/prompts/system_prompt.txt'")))
    all_well.

Definition hallo_record (reply : pystr) (file : option pystr) : conversation :=
  Conversation (lit "2024-01-01T00:00:00") (lit "shopping") (lit "Hallo") reply file.

(** A history of two conversations, the older first. *)
Definition first_talk : conversation := hallo_record (lit "Was willst du kaufen?") None.

Definition second_talk : conversation :=
  Conversation (lit "2024-01-01T00:05:00") (lit "shopping") (lit "Brot")
    (lit "Wie viel?") None.

Definition two_talks : world :=
  World ∅ (Some [RecordLine first_talk; RecordLine second_talk]) [] [] [].

End Sample.

(** Literals and formatted text stay folded during simplification. *)
Arguments lit : simpl never.
Arguments str_of_nat : simpl never.
Arguments title : simpl never.
Arguments strip : simpl never.
Arguments no_speech : simpl never.
Arguments fallback_reply : simpl never.
Arguments full_prompt : simpl never.
Arguments class_name : simpl never.

(** ** The rest of app.py *)

(** What the audio endpoint answers: a file to stream, or a JSON answer. *)
Inductive audio_response :=
| FileResponse (path media_type : pystr)
| Json (r : response).

(** GET /audio/{filename} *)
Definition get_audio (filename : pystr) (w : world) : audio_response :=
  let audio_path := lit "data/audio/" ++ filename in
  if bool_decide (is_Some (files w !! audio_path))
  then FileResponse audio_path (lit "audio/wav")
  else Json (JSONResponse 404 (lit "Audio file not found")).





(** ** The rest of tts_service.py *)

(** [is_tts_available()]: whether an engine is installed, and its name. *)
Definition is_tts_available (e : env) : bool * pystr :=
  if EDGE_TTS_AVAILABLE e then (true, lit "edge-tts")
  else if PYTTSX3_AVAILABLE e then (true, lit "pyttsx3")
  else (false, lit "none").

(** The engine runs a call added to those made before. *)
Definition new_tts_calls (w w' : world) : list tts_backend :=
  drop (length (tts_calls w)) (tts_calls w').

(** One item of [communicate.stream()]. *)
Record chunk := Chunk { chunk_type : pystr; chunk_data : list N }.

(** What [speak_text] meets beyond [env]: the temporary file made for the
    n-th run of the offline engine, and what the networked engine streams,
    with the exception that ends the stream if one does. *)
Record speak_env := SpeakEnv {
  temp_file : nat -> result pystr;
  edge_stream : list chunk;
  edge_stream_error : option exn
}.

(** [await f.read()] of a file opened for reading. *)
Definition read_file (p : pystr) : M (list N) :=
  fun w =>
    match files w !! p with
    | Some c => (Ok c, w)
    | None => (Raise (Exn FileNotFoundError p), w)
    end.

(** [Path(p).unlink(missing_ok=True)] *)
Definition unlink_missing_ok (p : pystr) : M unit :=
  fun w => (Ok tt, set_files (delete p (files w)) w).

(** The loop of [_edge_tts_synthesize] over the items streamed. *)
Definition collect_audio (chunks : list chunk) : list N :=
  fold_left
    (fun audio_data ch =>
       if bool_decide (chunk_type ch = lit "audio") then audio_data ++ chunk_data ch
       else audio_data)
    chunks [].

Definition _edge_tts_synthesize (se : speak_env) (text voice : pystr) : M (list N) :=
  fun w =>
    let w1 := add_tts_call Networked w in
    match edge_stream_error se with
    | Some ex => (Raise ex, w1)
    | None => (Ok (collect_audio (edge_stream se)), w1)
    end.

(** The temporary file is made and closed, the engine run on it as in
    [_pyttsx3_save], the file read, and then removed. *)
Definition _pyttsx3_synthesize (e : env) (se : speak_env) (text : pystr) : M (list N) :=
  fun w =>
    match temp_file se (offline_runs w) with
    | Raise ex => (Raise ex, w)
    | Ok temp_path =>
        (write_file temp_path [] ;;
         _pyttsx3_save e text temp_path ;;
         audio_data <- read_file temp_path ;;
         unlink_missing_ok temp_path ;;
         ret audio_data) w
    end.

Definition speak_text (e : env) (se : speak_env) (text voice : pystr)
    (prefer_offline : bool) : M (list N) :=
  returned <-
    (if prefer_offline && PYTTSX3_AVAILABLE e then
       try_except
         (audio <- _pyttsx3_synthesize e se text ;; ret (Some audio))
         (fun ex =>
            print (lit "Offline TTS failed, trying online: " ++ exn_msg ex) ;;
            ret None)
     else ret None) ;;
  match returned with
  | Some audio => ret audio
  | None =>
      if EDGE_TTS_AVAILABLE e then
        try_except
          (_edge_tts_synthesize se text voice)
          (fun ex =>
             print (lit "Online TTS failed: " ++ exn_msg ex) ;;
             if PYTTSX3_AVAILABLE e then _pyttsx3_synthesize e se text
             else raise ex)
      else if PYTTSX3_AVAILABLE e then _pyttsx3_synthesize e se text
      else raise (Exn Exception (lit "No TTS engine available. Install edge-tts or pyttsx3"))
  end.

(** The audio items of a stream, joined. *)
Definition audio_of (chunks : list chunk) : list N :=
  concat (map chunk_data
            (List.filter (fun ch => bool_decide (chunk_type ch = lit "audio")) chunks)).

(** ** The rest of ollama_client.py *)

(** The decoded body of GET /api/tags, as far as [list_ollama_models] looks at
    it: no "models" key, a list of models each with its name or the error of
    reading it, or something on which the look-up raises. *)
Inductive tags_payload :=
| NoModelsKey
| Models (entries : list (result pystr))
| BadPayload (e : exn).

Record tags_response := TagsResponse {
  tags_status : nat;
  tags_json : result tags_payload
}.

(** [requests.get(f"{base_url}/api/tags", timeout=...)], by the timeout. *)
Record ollama_env := OllamaEnv {
  requests_get : nat -> result tags_response
}.

(** The list comprehension [[model["name"] for model in ...]]. *)
Fixpoint model_names (entries : list (result pystr)) : result (list pystr) :=
  match entries with
  | [] => Ok []
  | Raise ex :: _ => Raise ex
  | Ok name :: rest =>
      match model_names rest with
      | Ok names => Ok (name :: names)
      | Raise ex => Raise ex
      end
  end.

Definition list_ollama_models (oe : ollama_env) : M (list pystr) :=
  try_except
    (match requests_get oe 10 with
     | Raise ex => raise ex
     | Ok response =>
         if negb (Nat.eqb (tags_status response) 200) then
           raise (Exn Exception (lit "Failed to get models: " ++ str_of_nat (tags_status response)))
         else
           match tags_json response with
           | Raise ex => raise ex
           | Ok (BadPayload ex) => raise ex
           | Ok NoModelsKey => ret []
           | Ok (Models entries) =>
               match model_names entries with
               | Ok names => ret names
               | Raise ex => raise ex
               end
           end
     end)
    (fun ex =>
       print (lit "Warning: Could not get model list: " ++ exn_msg ex) ;;
       ret [lit "mistral"]).

(** ** The rest of whisper_service.py *)

(** [is_whisper_available()], by what running [whisper --help] gives: the
    return code, or the exception of [subprocess.run]. *)
Definition is_whisper_available (cli : result nat) (e : env) : M (bool * pystr) :=
  match cli with
  | Ok O => ret (true, lit "cli")
  | _ =>
      match import_whisper e with
      | None => ret (true, lit "library")
      | Some ex =>
          if is_ImportError (exn_type ex) then ret (false, lit "none")
          else raise ex
      end
  end.

(** ** ui/streamlit_app.py *)

Definition BACKEND_URL : pystr := lit "http://127.0.0.1:8000".

(** What the page shows, in the order of the calls. *)
#[warnings="-register-all"]
Inductive widget :=
| st_error (body : pystr)
| st_success (body : pystr)
| st_info (body : pystr)
| st_warning (body : pystr)
| st_markdown (body : pystr)
| st_caption (body : pystr)
| st_audio (data format : pystr)
| st_expander (label : pystr) (inside : list widget).

(** The machine of the page: its files and what it shows. *)
Record ui := Ui {
  ui_files : gmap pystr (list N);
  page : list widget
}.

Definition show (x : widget) (u : ui) : ui := Ui (ui_files u) (page u ++ [x]).

(** What the page meets when the button is pressed and when it asks for the
    history. *)
Record ui_env := UiEnv {
  ui_temp_file : result pystr;     (* the temporary file of the recording *)
  ui_temp_write : option exn;      (* [None]: the recording was written *)
  post_error : option (exn * bool);
    (* [None]: the backend's answer came back.  Otherwise what
       [requests.post] raised, and whether the backend handled the request
       all the same, as it does when the client gives up waiting *)
  get_error : option exn;          (* [None]: the history request was answered *)
  response_text : response -> pystr;   (* response.text, the body as sent *)
  st_audio_error : option exn      (* what [st.audio] raises, if it does *)
}.

(** [os.path.basename] on a path with "/" as separator. *)
Fixpoint basename_from (name p : pystr) : pystr :=
  match p with
  | [] => name
  | c :: p' => if N.eqb c 47 then basename_from p' p' else basename_from name p'
  end.

Definition basename (p : pystr) : pystr := basename_from p p.

(** [send_voice_chat(audio_file, topic)]: the decoded answer, if any. *)
Definition send_voice_chat (ue : ui_env) (e : env) (name : pystr) (audio : list N)
    (topic : pystr) (u : ui) (w : world) : option response * ui * world :=
  let rq := Request (Some (basename name)) audio (Some topic) in
  match post_error ue with
  | None =>
      let (response, w') := voice_chat e rq w in
      if Nat.eqb (status_of response) 200 then (Some response, u, w')
      else
        (None,
         show (st_error (lit "Backend error: " ++ str_of_nat (status_of response)
                         ++ lit " - " ++ response_text ue response)) u,
         w')
  | Some (ex, handled) =>
      let w' := if handled then snd (voice_chat e rq w) else w in
      if is_ConnectionError (exn_type ex) then
        (None,
         show (st_error
                 (lit "Cannot connect to backend. Make sure it's running on http://127.0.0.1:8000")) u,
         w')
      else if is_Timeout (exn_type ex) then
        (None,
         show (st_error (lit "Request timed out. Try again with a shorter audio clip.")) u,
         w')
      else (None, show (st_error (lit "Error: " ++ exn_msg ex)) u, w')
  end.

(** Lines 134-151: what is shown for an answer.  An answer that is not the
    dictionary of a reply has no "user_text": the look-up raises a KeyError,
    given here as an [Exception] with its message, after the first two
    widgets.  The backend sends no such answer with status 200. *)
Definition show_result (ue : ui_env) (answer : option response) (u : ui) : result unit * ui :=
  match answer with
  | None => (Ok tt, u)
  | Some (Reply a) =>
      let u := show (st_success (lit "Got response from tutor!")) u in
      let u := show (st_markdown (lit "**What you said:**")) u in
      let u := show (st_info (user_text a)) u in
      let u := show (st_markdown (lit "**Tutor's response:**")) u in
      let u := show (st_success (reply_text a)) u in
      let audio_url := BACKEND_URL ++ show_opt (tts_url a) in
      let u := show (st_audio audio_url (lit "audio/wav")) u in
      match st_audio_error ue with
      | None => (Ok tt, u)
      | Some ex => (Ok tt, show (st_warning (lit "Could not play audio: " ++ exn_msg ex)) u)
      end
  | Some _ =>
      (Raise (Exn Exception (lit "'user_text'")),
       show (st_markdown (lit "**What you said:**"))
         (show (st_success (lit "Got response from tutor!")) u))
  end.

(** Lines 122-156: the button "Send to Tutor" on a recording. *)
Definition on_send (ue : ui_env) (e : env) (recording : list N) (topic : pystr)
    (u : ui) (w : world) : result unit * ui * world :=
  match ui_temp_file ue with
  | Raise ex => (Raise ex, u, w)
  | Ok tmp_path =>
      let u := Ui (<[tmp_path := []]> (ui_files u)) (page u) in
      match ui_temp_write ue with
      | Some ex => (Raise ex, u, w)
      | None =>
          let u := Ui (<[tmp_path := recording]> (ui_files u)) (page u) in
          (* try *)
          let '(answer, u, w) := send_voice_chat ue e tmp_path recording topic u w in
          let (outcome, u) := show_result ue answer u in
          (* finally *)
          let u := Ui (delete tmp_path (ui_files u)) (page u) in
          (outcome, u, w)
      end
  end.

(** [get_conversation_history()] *)
Definition get_conversation_history (ue : ui_env) (w : world) : list conversation :=
  match get_error ue with
  | Some _ => []
  | None =>
      let response := get_history None w in
      if Nat.eqb (status_of response) 200 then conversations_of response else []
  end.

(** Lines 161-170: the history column, for the history fetched. *)
Definition history_column (history : list conversation) : list widget :=
  match history with
  | [] => [st_info (lit "No conversation history yet. Start chatting!")]
  | _ :: _ =>
      imap
        (fun i conv =>
           st_expander (lit "Chat " ++ str_of_nat (length history - i))
             [st_markdown (lit "**Topic:** " ++ c_topic conv);
              st_markdown (lit "**You:** " ++ c_user_text conv);
              st_markdown (lit "**Tutor:** " ++ c_reply_text conv);
              st_caption (c_timestamp conv)])
        (reverse (slice_from (-5) history))
  end.

(** The expander of a conversation under a number. *)
Definition chat_entry (number : nat) (conv : conversation) : widget :=
  st_expander (lit "Chat " ++ str_of_nat number)
    [st_markdown (lit "**Topic:** " ++ c_topic conv);
     st_markdown (lit "**You:** " ++ c_user_text conv);
     st_markdown (lit "**Tutor:** " ++ c_reply_text conv);
     st_caption (c_timestamp conv)].

(** ** Samples and vocabulary for the rest of the code *)

(** The message [ask_ollama] raises for what went wrong inside it. *)
Definition ollama_report (cause : exn) : pystr :=
  if is_ConnectionError (exn_type cause) then
    lit "Cannot connect to Ollama. Make sure Ollama is running on localhost:11434"
  else if is_Timeout (exn_type cause) then
    lit "Ollama request timed out. Try a shorter prompt or different model."
  else lit "Ollama client error: " ++ exn_msg cause.

(** What [list_ollama_models] falls back to when [cause] was raised inside
    it: the default model, and the world with the warning printed. *)
Definition default_model_after (cause : exn) (w : world) : result (list pystr) * world :=
  (Ok [lit "mistral"],
   add_stdout (lit "Warning: Could not get model list: " ++ exn_msg cause) w).

(** The surroundings of a second request, answered at the same second, whose
    synthesis writes another audio. *)
Definition same_second_other_audio : env :=
  with_tts (TtsEnv true true None (fun _ => None) None [79; 103; 103; 83]) Sample.all_well.

(** The offline engine fails twice, with two errors, and the networked engine
    fails in between. *)
Definition every_run_fails : env :=
  with_tts
    (TtsEnv true true None
       (fun n => match n with
                 | O => Some (Exn RuntimeError (lit "run loop already started"))
                 | S _ => Some (Exn RuntimeError (lit "no audio device"))
                 end)
       (Some (Exn ConnectionError (lit "Cannot connect to host speech.platform.bing.com")))
       [])
    Sample.all_well.


(** A temporary name for every run of the offline engine, and a stream of
    two audio items around a word boundary. *)
Definition speaking : speak_env :=
  SpeakEnv (fun n => Ok (lit "/tmp/tmpq7w2.wav" ++ str_of_nat n))
    [Chunk (lit "audio") [1; 2]; Chunk (lit "WordBoundary") []; Chunk (lit "audio") [3]]
    None.

(** A history of twelve conversations, told apart by their time stamps. *)
Definition twelve_talks : list conversation :=
  map (fun i => Conversation (str_of_nat i) (lit "shopping") (lit "Brot") (lit "Wie viel?") None)
    (seq 1 12).

Definition answering : ui_env :=
  UiEnv (Ok (lit "/tmp/tmpu1.wav")) None None None (fun _ => []) None.

(** The request went out and no answer came back in time. *)
Definition gave_up_waiting : ui_env :=
  UiEnv (Ok (lit "/tmp/tmpu1.wav")) None
    (Some (Exn ReadTimeout (lit "Read timed out. (read timeout=30)"), true))
    None (fun _ => []) None.

(** The request the page sends for a recording. *)
Definition request_of (tmp_path : pystr) (recording : list N) (topic : pystr) : request :=
  Request (Some (basename tmp_path)) recording (Some topic).

(** The page after [on_send], and the backend after it. *)
Definition page_after (x : result unit * ui * world) : list widget := page (snd (fst x)).

Definition files_after (x : result unit * ui * world) : gmap pystr (list N) :=
  ui_files (snd (fst x)).

(** ** Facts about strings *)

(** [strip] leaves nothing exactly of the texts made of whitespace only. *)
Lemma lstrip_nil s : lstrip s = [] <-> forallb is_space s = true.
Proof.
  induction s as [|c s IH]; simpl; [tauto|].
  destruct (is_space c); simpl; [exact IH | split; discriminate].
Qed.

Lemma lstrip_head s c s' : lstrip s = c :: s' -> is_space c = false.
Proof.
  induction s as [|a s IH]; simpl; [discriminate|].
  destruct (is_space a) eqn:E; [exact IH | congruence].
Qed.

Lemma lstrip_keeps_spaces s : forallb is_space (lstrip s) = true -> forallb is_space s = true.
Proof.
  intros H. destruct (lstrip s) as [|c s'] eqn:E.
  - now apply lstrip_nil.
  - simpl in H. rewrite (lstrip_head _ _ _ E) in H. discriminate.
Qed.

Lemma forallb_rev_eq {A} (f : A -> bool) l : forallb f (rev l) = forallb f l.
Proof.
  induction l as [|x l IH]; simpl; [reflexivity|].
  rewrite forallb_app, IH. simpl. destruct (f x), (forallb f l); reflexivity.
Qed.

Lemma strip_blank s : strip s = [] <-> forallb is_space s = true.
Proof.
  unfold strip, rstrip. split.
  - intros H. apply (f_equal (@rev N)) in H. rewrite rev_involutive in H. simpl in H.
    apply lstrip_nil in H. rewrite forallb_rev_eq in H.
    now apply lstrip_keeps_spaces.
  - intros H. apply lstrip_nil in H. now rewrite H.
Qed.

Lemma strip_no_speech : strip no_speech = no_speech.
Proof. vm_compute. reflexivity. Qed.

Lemma strip_empty : strip [] = [].
Proof. vm_compute. reflexivity. Qed.

Lemma truthy_false s : truthy s = false <-> s = [].
Proof. destruct s; simpl; split; congruence. Qed.

Lemma truthy_true s : truthy s = true <-> s <> [].
Proof. destruct s; simpl; split; congruence. Qed.

Opaque lit str_of_nat title strip.

(** ** The monad *)

Lemma bind_ok {A B} (m : M A) (k : A -> M B) w a w' :
  m w = (Ok a, w') -> bind m k w = k a w'.
Proof. intros H. unfold bind. now rewrite H. Qed.

Lemma bind_raise {A B} (m : M A) (k : A -> M B) w ex w' :
  m w = (Raise ex, w') -> bind m k w = (Raise ex, w').
Proof. intros H. unfold bind. now rewrite H. Qed.

Lemma try_ok {A} (m : M A) h w a w' :
  m w = (Ok a, w') -> try_except m h w = (Ok a, w').
Proof. intros H. unfold try_except. now rewrite H. Qed.

Lemma try_raise {A} (m : M A) h w ex w' :
  m w = (Raise ex, w') -> try_except m h w = h ex w'.
Proof. intros H. unfold try_except. now rewrite H. Qed.

Section Frames.
Context {X : Type} (f : world -> X).

Lemma keeps_ret {A} (a : A) : keeps f (ret a).
Proof. now intros w. Qed.

Lemma keeps_raise {A} ex : keeps f (@raise A ex).
Proof. now intros w. Qed.

Lemma keeps_bind {A B} (m : M A) (k : A -> M B) :
  keeps f m -> (forall a, keeps f (k a)) -> keeps f (bind m k).
Proof.
  intros Hm Hk w. unfold bind. specialize (Hm w).
  destruct (m w) as [[a|ex] w1]; simpl in *; [|exact Hm].
  now rewrite Hk.
Qed.

Lemma keeps_try {A} (m : M A) h :
  keeps f m -> (forall ex, keeps f (h ex)) -> keeps f (try_except m h).
Proof.
  intros Hm Hh w. unfold try_except. specialize (Hm w).
  destruct (m w) as [[a|ex] w1]; simpl in *; [exact Hm|].
  now rewrite Hh.
Qed.
End Frames.

Lemma returns_ret {A} (a : A) : returns (ret a).
Proof. intros w. now exists a, w. Qed.

Lemma returns_print s : returns (print s).
Proof. intros w. now exists tt, (add_stdout s w). Qed.

Lemma returns_bind {A B} (m : M A) (k : A -> M B) :
  returns m -> (forall a, returns (k a)) -> returns (bind m k).
Proof.
  intros Hm Hk w. destruct (Hm w) as (a & w1 & E).
  rewrite (bind_ok _ _ _ _ _ E). apply Hk.
Qed.

Lemma returns_try {A} (m : M A) h :
  (forall ex, returns (h ex)) -> returns (try_except m h).
Proof.
  intros Hh w. unfold try_except.
  destruct (m w) as [[a|ex] w1]; [now exists a, w1 | apply Hh].
Qed.

(** Printing touches the standard output only. *)
Lemma print_keeps_files s : keeps files (print s).
Proof. now intros w. Qed.

Lemma print_keeps_history s : keeps history (print s).
Proof. now intros w. Qed.

Lemma print_keeps_tts_calls s : keeps tts_calls (print s).
Proof. now intros w. Qed.

Create HintDb frame.
#[local] Hint Resolve print_keeps_files print_keeps_history print_keeps_tts_calls : frame.
#[local] Hint Resolve returns_ret returns_print : frame.

(** Walks down a computation built from [bind], [try_except], [ret], [raise]
    and case distinctions on values. *)
Ltac frame :=
  repeat first
    [ apply keeps_ret | apply keeps_raise
    | apply keeps_bind; [|intros ?]
    | apply keeps_try; [|intros ?]
    | apply returns_bind; [|intros ?]
    | apply returns_try; intros ?
    | solve [auto with frame]
    | match goal with
      | |- keeps _ (match ?x with _ => _ end) => destruct x
      | |- returns (match ?x with _ => _ end) => destruct x
      end ].

(** ** The operating system and the engines, one call at a time *)

Lemma os_path_exists_keeps {X} (f : world -> X) p : keeps f (os_path_exists p).
Proof. now intros w. Qed.

Lemma os_path_getsize_keeps {X} (f : world -> X) p : keeps f (os_path_getsize p).
Proof. intros w. unfold os_path_getsize. now destruct (files w !! p). Qed.

Lemma os_unlink_keeps_history p : keeps history (os_unlink p).
Proof. intros w. unfold os_unlink. now destruct (files w !! p). Qed.

Lemma write_file_keeps_history p c : keeps history (write_file p c).
Proof. now intros w. Qed.

Lemma whisper_transcribe_keeps {X} (f : world -> X) e p : keeps f (whisper_transcribe e p).
Proof.
  intros w. unfold whisper_transcribe.
  destruct (files w !! p); [destruct (model_transcribe e _)|]; reflexivity.
Qed.

Lemma run_import_whisper_keeps {X} (f : world -> X) e : keeps f (run_import_whisper e).
Proof. unfold run_import_whisper. frame. Qed.

Lemma whisper_load_model_keeps {X} (f : world -> X) e : keeps f (whisper_load_model e).
Proof. unfold whisper_load_model. frame. Qed.

Lemma make_parent_dir_keeps {X} (f : world -> X) e : keeps f (make_parent_dir e).
Proof. unfold make_parent_dir. frame. Qed.

Lemma _pyttsx3_save_keeps_history e t p : keeps history (_pyttsx3_save e t p).
Proof. intros w. unfold _pyttsx3_save. now destruct (pyttsx3_run e _). Qed.

Lemma _edge_tts_save_keeps_history e t p v : keeps history (_edge_tts_save e t p v).
Proof. intros w. unfold _edge_tts_save. now destruct (edge_tts_run e). Qed.

Lemma open_and_read_keeps {X} (f : world -> X) e p : keeps f (open_and_read e p).
Proof.
  intros w. unfold open_and_read.
  destruct (files w !! p); [destruct (system_prompt_read e _)|]; reflexivity.
Qed.

Lemma read_system_prompt_keeps {X} (f : world -> X) e : keeps f (read_system_prompt e).
Proof.
  unfold read_system_prompt. apply keeps_bind; [apply os_path_exists_keeps|].
  intros [|]; [apply open_and_read_keeps | apply keeps_ret].
Qed.

#[local] Hint Resolve os_path_exists_keeps os_path_getsize_keeps os_unlink_keeps_history
  write_file_keeps_history whisper_transcribe_keeps run_import_whisper_keeps
  whisper_load_model_keeps make_parent_dir_keeps _pyttsx3_save_keeps_history
  _edge_tts_save_keeps_history open_and_read_keeps read_system_prompt_keeps : frame.

(** ** whisper_service.py: what does not change, and that it returns *)

Lemma _transcribe_with_library_keeps_files e p m :
  keeps files (_transcribe_with_library e p m).
Proof. unfold _transcribe_with_library. frame. Qed.

Lemma _transcribe_with_library_keeps_history e p m :
  keeps history (_transcribe_with_library e p m).
Proof. unfold _transcribe_with_library. frame. Qed.

#[local] Hint Resolve _transcribe_with_library_keeps_files
  _transcribe_with_library_keeps_history : frame.

Lemma transcribe_audio_keeps_files e p : keeps files (transcribe_audio e p).
Proof. unfold transcribe_audio, transcribe_audio_try. frame. Qed.

Lemma transcribe_audio_keeps_history e p : keeps history (transcribe_audio e p).
Proof. unfold transcribe_audio, transcribe_audio_try. frame. Qed.

Lemma transcribe_audio_returns e p : returns (transcribe_audio e p).
Proof. unfold transcribe_audio. frame. Qed.

#[local] Hint Resolve transcribe_audio_keeps_files transcribe_audio_keeps_history
  transcribe_audio_returns : frame.

(** [transcribe_audio] passes on what the library returns and turns what it
    raises into the empty string. *)
Lemma transcribe_audio_by_library e p w :
  fst (transcribe_audio e p w) =
    match fst (_transcribe_with_library e p (lit "tiny") (at_library_call p w)) with
    | Ok r => Ok r
    | Raise _ => Ok []
    end.
Proof.
  unfold transcribe_audio, transcribe_audio_try, bind at 1, print at 1.
  fold (at_library_call p w).
  unfold bind at 1, try_except at 1, bind at 1.
  destruct (_transcribe_with_library e p (lit "tiny") (at_library_call p w))
    as [[r|ex] w1]; simpl; [|reflexivity].
  destruct r; reflexivity.
Qed.

Lemma os_path_exists_Some p w c :
  files w !! p = Some c -> os_path_exists p w = (Ok true, w).
Proof.
  intros H. unfold os_path_exists. rewrite H.
  rewrite bool_decide_true; [reflexivity | eauto].
Qed.

(** The library on a clip that is there: it raises on every fault but an empty
    recognition, for which it returns the marker; otherwise it returns the
    stripped text. *)
Lemma _transcribe_with_library_result e p m w audio :
  files w !! p = Some audio ->
  match fst (_transcribe_with_library e p m w) with
  | Raise ex =>
      exn_type ex = Exception /\
      exists k, engine_fault_of e audio = Some k /\ k <> EmptyRecognition
  | Ok t =>
      match engine_fault_of e audio with
      | Some k => k = EmptyRecognition /\ t = no_speech
      | None => exists r, model_transcribe e audio = Ok r /\ t = strip (wr_text r)
      end
  end.
Proof.
  intros Hf.
  unfold _transcribe_with_library, engine_fault_of, try_except, bind,
    run_import_whisper, whisper_load_model, whisper_transcribe,
    os_path_exists, os_path_getsize, print, raise, ret.
  destruct (import_whisper e) as [ex|]; simpl.
  { destruct (is_ImportError (exn_type ex)); simpl; split; eauto; now eexists. }
  rewrite Hf. rewrite bool_decide_true by eauto. simpl. rewrite Hf.
  destruct audio as [|b audio]; simpl.
  { split; eauto; now eexists. }
  destruct (load_model e) as [ex|]; simpl.
  { destruct (is_ImportError (exn_type ex)); simpl; split; eauto; now eexists. }
  rewrite Hf.
  destruct (model_transcribe e (b :: audio)) as [r|ex]; simpl.
  2:{ destruct (is_ImportError (exn_type ex)); simpl; split; eauto; now eexists. }
  destruct (truthy (strip (wr_text r))) eqn:Et; simpl; eauto.
Qed.

(** [transcribe_audio] on a clip that is there, by what the engine does. *)
Lemma transcribe_audio_result e p w audio :
  files w !! p = Some audio ->
  fst (transcribe_audio e p w) =
    Ok match engine_fault_of e audio with
       | Some k => fault_transcript k
       | None =>
           match model_transcribe e audio with
           | Ok r => strip (wr_text r)
           | Raise _ => []
           end
       end.
Proof.
  intros Hf. rewrite transcribe_audio_by_library.
  pose proof (_transcribe_with_library_result e p (lit "tiny") (at_library_call p w) audio Hf) as H.
  destruct (fst (_transcribe_with_library e p (lit "tiny") (at_library_call p w))) as [t|ex].
  - destruct (engine_fault_of e audio) as [k|].
    + now destruct H as [-> ->].
    + destruct H as (r & -> & ->). reflexivity.
  - destruct H as (_ & k & -> & Hk). now destruct k.
Qed.

(** ** app.py, stage by stage *)

(** Receiving: the scratch file holds the upload when the stage returns. *)
Lemma receiving_audio_ok e rq w p w1 :
  receiving_audio e rq w = (Ok p, w1) ->
  NamedTemporaryFile e = Ok p /\ temp_audio_write e = None /\
  files w1 = <[p := audio_content rq]> (<[p := []]> (files w)) /\
  history w1 = history w /\ tts_calls w1 = tts_calls w.
Proof.
  unfold receiving_audio, save_upload, bind, write_file, print, raise, ret.
  destruct (NamedTemporaryFile e) as [name|ex]; simpl; [|discriminate].
  destruct (temp_audio_write e) as [ex|]; simpl; [discriminate|].
  intros H. injection H as <- <-. simpl. auto.
Qed.


Lemma os_unlink_Some p w c :
  files w !! p = Some c -> os_unlink p w = (Ok tt, set_files (delete p (files w)) w).
Proof. intros H. unfold os_unlink. now rewrite H. Qed.

(** Transcribing on a scratch file that is there: the stage returns what
    [transcribe_audio] returns, and the scratch file is gone. *)
Lemma transcribing_run e p w audio :
  files w !! p = Some audio ->
  exists T w2,
    fst (transcribe_audio e p w) = Ok T /\
    transcribing e p w = (Ok T, w2) /\
    files w2 = delete p (files w) /\
    history w2 = history w /\ tts_calls w2 = tts_calls w.
Proof.
  intros Hf.
  destruct (transcribe_audio_returns e p w) as (T & wt & Et).
  pose proof (transcribe_audio_keeps_files e p w) as Kf.
  pose proof (transcribe_audio_keeps_history e p w) as Kh.
  assert (Kt : tts_calls wt = tts_calls w).
  { assert (K : keeps tts_calls (transcribe_audio e p))
      by (unfold transcribe_audio, transcribe_audio_try, _transcribe_with_library; frame).
    specialize (K w). now rewrite Et in K. }
  rewrite Et in Kf, Kh. simpl in Kf, Kh.
  exists T. eexists. split; [now rewrite Et|].
  unfold transcribing, transcribing_try.
  unfold bind at 1, try_except. rewrite (bind_ok _ _ _ _ _ Et).
  unfold bind at 1, print at 1. simpl.
  unfold bind at 1.
  rewrite (os_unlink_Some p _ audio) by (simpl; now rewrite Kf).
  simpl. repeat split; simpl; congruence.
Qed.

(** The scratch file is gone after the transcribing stage. *)
Lemma transcribing_removes_scratch e p w audio T w2 :
  files w !! p = Some audio ->
  transcribing e p w = (Ok T, w2) ->
  files w2 !! p = None.
Proof.
  intros Hf Ht. destruct (transcribing_run e p w audio Hf) as (T' & w' & _ & E & Hd & _).
  rewrite E in Ht. injection Ht as <- <-. rewrite Hd. apply lookup_delete_eq.
Qed.

(** ** ollama_client.py *)

Lemma ask_ollama_keeps {X} (f : world -> X) e p : keeps f (ask_ollama e p).
Proof. unfold ask_ollama. frame. Qed.

#[local] Hint Resolve ask_ollama_keeps : frame.

(** The client answers only when the engine answered 200 with a string under
    "response"; it then returns the stripped string. *)
Lemma ask_ollama_ok e p w s w' :
  ask_ollama e p w = (Ok s, w') ->
  exists resp s', requests_post e p = Ok resp /\ status_code resp = 200%nat /\
                  json resp = Ok (HasResponse (Ok s')) /\ s = strip s'.
Proof.
  unfold ask_ollama, try_except, raise, ret.
  destruct (requests_post e p) as [resp|ex]; simpl.
  2:{ destruct (is_ConnectionError _); [discriminate|].
      destruct (is_Timeout _); discriminate. }
  destruct (Nat.eqb_spec (status_code resp) 200) as [E|E]; simpl.
  2:{ discriminate. }
  destruct (json resp) as [[[s'|ex]|shown|ex]|ex] eqn:J; simpl;
    try discriminate;
    try (destruct (is_ConnectionError _); [discriminate|];
         destruct (is_Timeout _); discriminate).
  intros H. injection H as <- <-. eauto 6.
Qed.

(** A connection error, a timeout and a payload without "response" each make
    the client raise. *)
Lemma ask_ollama_connection_error e p w ex :
  requests_post e p = Raise ex -> is_ConnectionError (exn_type ex) = true ->
  ask_ollama e p w =
    (Raise (Exn Exception
       (lit "Cannot connect to Ollama. Make sure Ollama is running on localhost:11434")), w).
Proof. intros H C. unfold ask_ollama, try_except, raise. now rewrite H, C. Qed.

Lemma ask_ollama_timeout e p w ex :
  requests_post e p = Raise ex -> is_ConnectionError (exn_type ex) = false ->
  is_Timeout (exn_type ex) = true ->
  ask_ollama e p w =
    (Raise (Exn Exception
       (lit "Ollama request timed out. Try a shorter prompt or different model.")), w).
Proof. intros H C T. unfold ask_ollama, try_except, raise. now rewrite H, C, T. Qed.

Lemma ask_ollama_malformed e p w resp shown :
  requests_post e p = Ok resp -> status_code resp = 200%nat ->
  json resp = Ok (NoResponse shown) ->
  ask_ollama e p w =
    (Raise (Exn Exception
       (lit "Ollama client error: " ++ lit "Invalid response format: " ++ shown)), w).
Proof.
  intros H S J. unfold ask_ollama, try_except, raise. now rewrite H, S, J.
Qed.

(** Reading the system prompt leaves the world as it is. *)
Lemma read_system_prompt_world e w : snd (read_system_prompt e w) = w.
Proof. apply (read_system_prompt_keeps (fun w => w)). Qed.

(** Without a prompt file the built-in prompt is used; with one, the outcome
    is that of opening and reading it. *)
Lemma read_system_prompt_result e w :
  fst (read_system_prompt e w) =
    match files w !! system_prompt_path with
    | None => Ok default_system_prompt
    | Some content => system_prompt_read e content
    end.
Proof.
  unfold read_system_prompt, bind, os_path_exists, open_and_read, ret.
  destruct (files w !! system_prompt_path) as [content|] eqn:Hf.
  - rewrite bool_decide_true by eauto. rewrite Hf.
    now destruct (system_prompt_read e content).
  - rewrite bool_decide_false by (intros [? ?]; discriminate). reflexivity.
Qed.

(** Once the system prompt is read, generating does not raise: the reply is
    the engine's, or the fallback. *)
Lemma generating_run e topic T w s :
  fst (read_system_prompt e w) = Ok s ->
  exists w3,
    generating e topic T w =
      (Ok match fst (ask_ollama e (full_prompt s topic T) w) with
          | Ok r => r
          | Raise _ => fallback_reply T
          end, w3) /\
    files w3 = files w /\ history w3 = history w /\ tts_calls w3 = tts_calls w.
Proof.
  intros Hp. pose proof (read_system_prompt_world e w) as Hw.
  unfold generating, bind at 1.
  destruct (read_system_prompt e w) as [[s'|ex] w0]; simpl in Hp, Hw; [|discriminate].
  injection Hp as ->. subst w0.
  unfold try_except, bind at 1.
  pose proof (ask_ollama_keeps files e (full_prompt s topic T) w) as Kf.
  pose proof (ask_ollama_keeps history e (full_prompt s topic T) w) as Kh.
  pose proof (ask_ollama_keeps tts_calls e (full_prompt s topic T) w) as Kt.
  destruct (ask_ollama e (full_prompt s topic T) w) as [[r|ex] w']; simpl in *;
    eexists; (split; [reflexivity|]); simpl; auto.
Qed.

Lemma read_system_prompt_ok e w s :
  fst (read_system_prompt e w) = Ok s -> read_system_prompt e w = (Ok s, w).
Proof.
  intros H. pose proof (read_system_prompt_world e w) as Hw.
  destruct (read_system_prompt e w) as [r w0]; simpl in *. now subst.
Qed.

(** What reading the system prompt raises, generating raises, before any
    engine is asked. *)
Lemma generating_raise e topic T w ex :
  fst (read_system_prompt e w) = Raise ex ->
  generating e topic T w = (Raise ex, w).
Proof.
  intros Hp. pose proof (read_system_prompt_world e w) as Hw.
  unfold generating, bind at 1.
  destruct (read_system_prompt e w) as [[s'|ex'] w0]; simpl in Hp, Hw; [discriminate|].
  now injection Hp as ->; subst w0.
Qed.

(** ** tts_service.py *)

Lemma save_tts_audio_keeps_history e t p v o : keeps history (save_tts_audio e t p v o).
Proof. unfold save_tts_audio. frame. Qed.

#[local] Hint Resolve save_tts_audio_keeps_history : frame.

(** Synthesizing never raises: the file name and URL, or nothing. *)
Lemma synthesizing_run e R w :
  exists w4,
    synthesizing e R w =
      (Ok match fst (save_tts_audio e R (tts_path_of e) default_voice true w) with
          | Ok _ => (Some (tts_filename_of e), Some (lit "/audio/" ++ tts_filename_of e))
          | Raise _ => (None, None)
          end, w4) /\
    history w4 = history w.
Proof.
  unfold synthesizing, try_except, bind at 1.
  pose proof (save_tts_audio_keeps_history e R (tts_path_of e) default_voice true w) as Kh.
  destruct (save_tts_audio e R (tts_path_of e) default_voice true w) as [[[]|ex] w'];
    simpl in *; eexists; (split; [reflexivity|]); simpl; auto.
Qed.

(** Logging never raises: the record is appended unless the append fails. *)
Lemma logging_run e topic T R fn w :
  exists w5,
    logging e topic T R fn w = (Ok tt, w5) /\
    history w5 =
      match history_append e with
      | None => Some (records w ++ [RecordLine (Conversation (now_isoformat e) topic T R fn)])
      | Some _ => history w
      end.
Proof.
  unfold logging, try_except, bind, append_history, print, records.
  destruct (history_append e); simpl; eexists; (split; [reflexivity|]); reflexivity.
Qed.

(** ** The handler as a whole *)

(** A request that got its scratch file written reaches the end of the
    transcribing stage. *)
Lemma transcribed_after_receiving e rq w p w1 :
  receiving_audio e rq w = (Ok p, w1) ->
  exists T w2,
    transcribed e rq w = Some (T, w2) /\
    transcribing e p w1 = (Ok T, w2) /\
    fst (transcribe_audio e p w1) = Ok T /\
    files w1 !! p = Some (audio_content rq) /\
    files w2 = delete p (files w1) /\
    history w2 = history w /\ tts_calls w2 = tts_calls w.
Proof.
  intros Hr. destruct (receiving_audio_ok _ _ _ _ _ Hr) as (_ & _ & Hf & Hh & Hc).
  assert (Hp : files w1 !! p = Some (audio_content rq))
    by (rewrite Hf; apply lookup_insert_eq).
  destruct (transcribing_run e p w1 _ Hp) as (T & w2 & Ha & Ht & Hd & Hh2 & Hc2).
  exists T, w2. unfold transcribed. rewrite Hr, Ht.
  repeat split; auto; congruence.
Qed.

(** A request is not transcribed only when receiving it raised. *)
Lemma transcribed_None e rq w :
  transcribed e rq w = None ->
  exists ex w1, receiving_audio e rq w = (Raise ex, w1).
Proof.
  unfold transcribed. destruct (receiving_audio e rq w) as [[p|ex] w1] eqn:Hr; [|eauto].
  destruct (transcribed_after_receiving _ _ _ _ _ Hr) as (T & w2 & _ & -> & _).
  discriminate.
Qed.

Lemma transcribed_Some e rq w T w2 :
  transcribed e rq w = Some (T, w2) ->
  exists p w1, receiving_audio e rq w = (Ok p, w1) /\ transcribing e p w1 = (Ok T, w2).
Proof.
  unfold transcribed. destruct (receiving_audio e rq w) as [[p|ex] w1]; [|discriminate].
  destruct (transcribing e p w1) as [[T'|ex] w2'] eqn:Ht; [|discriminate].
  intros H. injection H as <- <-. eauto.
Qed.

Lemma transcript_Some e rq w T :
  transcript e rq w = Some T -> exists w2, transcribed e rq w = Some (T, w2).
Proof.
  unfold transcript. destruct (transcribed e rq w) as [[T' w2]|]; [|discriminate].
  intros H. injection H as <-. eauto.
Qed.

(** Receiving raised: the fault answer, with the exception's message in it. *)
Lemma voice_chat_raise e rq w ex w1 :
  receiving_audio e rq w = (Raise ex, w1) ->
  voice_chat_try e rq w = (Raise ex, w1) /\
  voice_chat e rq w =
    (JSONResponse 500 (lit "Processing failed: " ++ exn_msg ex),
     add_traceback ex
       (add_stdout (lit "Error type: " ++ class_name (exn_type ex))
          (add_stdout (lit "Request processing failed with error: " ++ exn_msg ex) w1))).
Proof.
  intros Hr. unfold voice_chat, voice_chat_try.
  rewrite (bind_raise _ _ _ _ _ Hr). auto.
Qed.

(** A blank transcript: the client error, and nothing after it. *)
Lemma voice_chat_blank e rq w T w2 :
  transcribed e rq w = Some (T, w2) ->
  truthy (strip T) = false ->
  voice_chat e rq w = (JSONResponse 400 (lit "Could not transcribe audio"), w2).
Proof.
  intros Ht Hb. destruct (transcribed_Some _ _ _ _ _ Ht) as (p & w1 & Hr & Hs).
  unfold voice_chat, voice_chat_try.
  rewrite (bind_ok _ _ _ _ _ Hr), (bind_ok _ _ _ _ _ Hs), Hb. reflexivity.
Qed.

(** A transcript that is not blank and a system prompt file that cannot be
    read: the fault answer, and nothing after it. *)
Lemma voice_chat_no_prompt e rq w T w2 ex :
  transcribed e rq w = Some (T, w2) ->
  truthy (strip T) = true ->
  fst (read_system_prompt e w2) = Raise ex ->
  voice_chat_try e rq w = (Raise ex, w2) /\
  voice_chat e rq w =
    (JSONResponse 500 (lit "Processing failed: " ++ exn_msg ex),
     add_traceback ex
       (add_stdout (lit "Error type: " ++ class_name (exn_type ex))
          (add_stdout (lit "Request processing failed with error: " ++ exn_msg ex) w2))).
Proof.
  intros Ht Hb Hp. destruct (transcribed_Some _ _ _ _ _ Ht) as (p & w1 & Hr & Hs).
  assert (E : voice_chat_try e rq w = (Raise ex, w2)).
  { unfold voice_chat_try.
    rewrite (bind_ok _ _ _ _ _ Hr), (bind_ok _ _ _ _ _ Hs), Hb.
    change (negb true) with false. cbv iota.
    now rewrite (bind_raise _ _ _ _ _ (generating_raise e (req_topic rq) T w2 ex Hp)). }
  split; [exact E|]. unfold voice_chat. now rewrite E.
Qed.

(** A transcript that is not blank and a system prompt that was read: the
    answer, and the history. *)
Lemma voice_chat_answer e rq w T w2 s :
  transcribed e rq w = Some (T, w2) ->
  truthy (strip T) = true ->
  fst (read_system_prompt e w2) = Ok s ->
  exists w5,
    voice_chat e rq w =
      (Reply (ChatReply T (reply_of e rq w T) (tts_url_of e (synthesis e rq w)) (req_topic rq)),
       w5) /\
    history w5 =
      match history_append e with
      | None =>
          Some (records w2 ++
                [RecordLine (Conversation (now_isoformat e) (req_topic rq) T
                               (reply_of e rq w T) (tts_file_of e (synthesis e rq w)))])
      | Some _ => history w2
      end.
Proof.
  intros Ht Hb Hp. destruct (transcribed_Some _ _ _ _ _ Ht) as (p & w1 & Hr & Hs).
  unfold reply_of, generation, synthesis. rewrite Ht, Hb, (read_system_prompt_ok _ _ _ Hp).
  destruct (generating_run e (req_topic rq) T w2 s Hp) as (w3 & Hg & _ & Hh3 & _).
  set (R := match fst (ask_ollama e (full_prompt s (req_topic rq) T) w2) with
            | Ok r => r | Raise _ => fallback_reply T end) in *.
  assert (ER : match fst (ask_ollama e (full_prompt s (req_topic rq) T) w2) with
               | Ok r => r | Raise _ => fallback_reply T end = R) by reflexivity.
  rewrite Hg.
  destruct (synthesizing_run e R w3) as (w4 & Hy & Hh4).
  set (S := fst (save_tts_audio e R (tts_path_of e) default_voice true w3)) in *.
  destruct (logging_run e (req_topic rq) T R
              (fst match S with
                   | Ok _ => (Some (tts_filename_of e), Some (lit "/audio/" ++ tts_filename_of e))
                   | Raise _ => (None, None)
                   end) w4) as (w5 & Hl & Hh5).
  set (tts := match S with
              | Ok _ => (Some (tts_filename_of e), Some (lit "/audio/" ++ tts_filename_of e))
              | Raise _ => (None, None)
              end) in *.
  assert (E : exists w6, voice_chat e rq w =
                (Reply (ChatReply T R (snd tts) (req_topic rq)), w6) /\
              history w6 = history w5).
  { eexists. unfold voice_chat, voice_chat_try.
    rewrite (bind_ok _ _ _ _ _ Hr), (bind_ok _ _ _ _ _ Hs), Hb.
    change (negb true) with false. cbv iota.
    rewrite (bind_ok _ _ _ _ _ Hg), (bind_ok _ _ _ _ _ Hy), (bind_ok _ _ _ _ _ Hl).
    unfold bind, print, ret. split; reflexivity. }
  destruct E as (w6 & E & Hh6). exists w6. rewrite E, Hh6, Hh5.
  unfold records. rewrite Hh4, Hh3. subst tts.
  split; destruct S as [[]|ex']; reflexivity.
Qed.

Lemma transcribed_history e rq w T w2 :
  transcribed e rq w = Some (T, w2) -> history w2 = history w.
Proof.
  intros Ht. destruct (transcribed_Some _ _ _ _ _ Ht) as (p & w1 & Hr & _).
  destruct (transcribed_after_receiving _ _ _ _ _ Hr) as (T' & w2' & Ht' & _ & _ & _ & _ & Hh & _).
  rewrite Ht in Ht'. now injection Ht' as <- <-.
Qed.


(** The calls a request makes to the engines come after the system prompt
    was read. *)
Lemma prompt_read_at e rq w T w2 :
  transcribed e rq w = Some (T, w2) ->
  truthy (strip T) = true ->
  prompt_read e rq w = Some (fst (read_system_prompt e w2)).
Proof. intros Ht Hb. unfold prompt_read. now rewrite Ht, Hb. Qed.

(** With a scratch file that is not the prompt file, the outcome is settled
    by the prompt file the request found. *)
Lemma prompt_read_by_file e rq w T p :
  transcript e rq w = Some T ->
  strip T <> [] ->
  NamedTemporaryFile e = Ok p ->
  p <> system_prompt_path ->
  prompt_read e rq w =
    Some match files w !! system_prompt_path with
         | None => Ok default_system_prompt
         | Some content => system_prompt_read e content
         end.
Proof.
  intros Ht Hb Hn Hp. destruct (transcript_Some _ _ _ _ Ht) as (w2 & Hs).
  apply truthy_true in Hb.
  rewrite (prompt_read_at _ _ _ _ _ Hs Hb), read_system_prompt_result.
  destruct (transcribed_Some _ _ _ _ _ Hs) as (p' & w1 & Hr & _).
  destruct (receiving_audio_ok _ _ _ _ _ Hr) as (Hn' & _ & Hf & _).
  destruct (transcribed_after_receiving _ _ _ _ _ Hr) as (T' & w2' & Hs' & _ & _ & _ & Hd & _).
  rewrite Hs in Hs'. injection Hs' as <- <-.
  rewrite Hn in Hn'. injection Hn' as <-.
  rewrite Hd, Hf, lookup_delete_ne, !lookup_insert_ne by exact Hp.
  reflexivity.
Qed.

Lemma generation_Some e rq w T w2 g :
  transcribed e rq w = Some (T, w2) ->
  generation e rq w = Some g ->
  truthy (strip T) = true /\ exists s, fst (read_system_prompt e w2) = Ok s.
Proof.
  intros Ht Hg. unfold generation in Hg. rewrite Ht in Hg.
  destruct (truthy (strip T)); [|discriminate]. split; [reflexivity|].
  destruct (read_system_prompt e w2) as [[s|ex] w3]; [eauto | discriminate].
Qed.

Lemma synthesis_Some e rq w T w2 y :
  transcribed e rq w = Some (T, w2) ->
  synthesis e rq w = Some y ->
  truthy (strip T) = true /\ exists s, fst (read_system_prompt e w2) = Ok s.
Proof.
  intros Ht Hy. unfold synthesis in Hy. rewrite Ht in Hy.
  destruct (truthy (strip T)); [|discriminate]. split; [reflexivity|].
  destruct (fst (read_system_prompt e w2)) as [s|ex] eqn:Hp; [eauto|].
  rewrite (generating_raise e (req_topic rq) T w2 ex Hp) in Hy. discriminate.
Qed.

(** ** The claims *)

(** *** C1 *)

(** C1, as amended.  When the transcription stage returns an empty or
    whitespace-only text (one that [strip] empties, see [strip_blank]), the
    endpoint answers 400 with the error "Could not transcribe audio", and the
    history is left as it was. *)
Theorem blank_transcript_rejected e rq w T :
  transcript e rq w = Some T ->
  strip T = [] ->
  fst (voice_chat e rq w) = JSONResponse 400 (lit "Could not transcribe audio") /\
  history (snd (voice_chat e rq w)) = history w.
Proof.
  intros Ht Hb. destruct (transcript_Some _ _ _ _ Ht) as (w2 & Hs).
  apply truthy_false in Hb.
  rewrite (voice_chat_blank _ _ _ _ _ Hs Hb). simpl.
  split; [reflexivity | eapply transcribed_history; eassumption].
Qed.

(** The amended C1 at a request made while the whisper package is missing. *)
Lemma blank_transcript_rejected_witness :
  fst (voice_chat Sample.whisper_missing Sample.clip Sample.nowhere)
    = JSONResponse 400 (lit "Could not transcribe audio") /\
  history (snd (voice_chat Sample.whisper_missing Sample.clip Sample.nowhere))
    = history Sample.nowhere.
Proof.
  apply (blank_transcript_rejected Sample.whisper_missing Sample.clip Sample.nowhere []).
  - vm_compute. reflexivity.
  - vm_compute. reflexivity.
Defined.

(** C1 as stated fails on the marker: when the engine hears nothing, the
    transcription stage returns "[Kein Audio erkannt]", the endpoint answers
    200 and a record with the marker as user text is appended. *)
Lemma marker_transcript_accepted :
  transcript Sample.silence Sample.clip Sample.nowhere = Some no_speech /\
  status_of (fst (voice_chat Sample.silence Sample.clip Sample.nowhere)) = 200%nat /\
  history (snd (voice_chat Sample.silence Sample.clip Sample.nowhere))
    = Some [RecordLine
              (Conversation (lit "2024-01-01T00:00:00") (lit "shopping") no_speech
                 (lit "Was willst du kaufen?") (Some (lit "reply_20240101_000000.wav")))].
Proof. vm_compute. repeat split. Qed.

(** *** C2 *)




(** *** C3 *)

(** C3.  When the transcription yields a text [T] that is not blank and the
    call to the generation engine raises, whatever it raises, the endpoint
    still answers 200, with [T] as user text and, as reply, the fallback
    template with [T] in it. *)
Theorem generation_failure_falls_back e rq w T ex :
  transcript e rq w = Some T ->
  strip T <> [] ->
  generation e rq w = Some (Raise ex) ->
  status_of (fst (voice_chat e rq w)) = 200%nat /\
  fst (voice_chat e rq w) =
    Reply (ChatReply T (fallback_reply T) (tts_url_of e (synthesis e rq w)) (req_topic rq)) /\
  fallback_reply T =
    lit "Ich habe verstanden: '" ++ T
    ++ lit "'. Das ist interessant! (Ollama ist nicht verf" ++ [252] ++ lit "gbar)".
Proof.
  intros Ht Hb Hg. destruct (transcript_Some _ _ _ _ Ht) as (w2 & Hs).
  apply truthy_true in Hb.
  destruct (generation_Some _ _ _ _ _ _ Hs Hg) as (_ & s & Hp).
  destruct (voice_chat_answer _ _ _ _ _ _ Hs Hb Hp) as (w5 & E & _).
  rewrite E. unfold reply_of. rewrite Hg. simpl. auto.
Qed.

(** C3 at a request made while the generation engine is not running. *)
Lemma generation_failure_falls_back_witness :
  status_of (fst (voice_chat Sample.ollama_down Sample.clip Sample.nowhere)) = 200%nat /\
  fst (voice_chat Sample.ollama_down Sample.clip Sample.nowhere) =
    Reply (ChatReply (lit "Hallo") (fallback_reply (lit "Hallo"))
             (tts_url_of Sample.ollama_down
                (synthesis Sample.ollama_down Sample.clip Sample.nowhere))
             (req_topic Sample.clip)) /\
  fallback_reply (lit "Hallo") =
    lit "Ich habe verstanden: '" ++ lit "Hallo"
    ++ lit "'. Das ist interessant! (Ollama ist nicht verf" ++ [252] ++ lit "gbar)".
Proof.
  apply (generation_failure_falls_back Sample.ollama_down Sample.clip Sample.nowhere
           (lit "Hallo")
           (Exn Exception
              (lit "Cannot connect to Ollama. Make sure Ollama is running on localhost:11434"))).
  - vm_compute. reflexivity.
  - vm_compute. discriminate.
  - vm_compute. reflexivity.
Defined.

(** *** C4 *)

(** C4.  When the transcription yields a text [T] that is not blank and the
    synthesis call raises, the endpoint still answers 200 with a null
    [tts_url]; user text, reply and topic are those of the same request with
    a synthesis side that works. *)
Theorem synthesis_failure_keeps_answer e rq w T ex :
  transcript e rq w = Some T ->
  strip T <> [] ->
  synthesis e rq w = Some (Raise ex) ->
  status_of (fst (voice_chat e rq w)) = 200%nat /\
  fst (voice_chat e rq w) = Reply (ChatReply T (reply_of e rq w T) None (req_topic rq)) /\
  (forall t, synthesis (with_tts t e) rq w = Some (Ok tt) ->
     fst (voice_chat (with_tts t e) rq w) =
       Reply (ChatReply T (reply_of e rq w T)
                (Some (lit "/audio/" ++ tts_filename_of e)) (req_topic rq))).
Proof.
  intros Ht Hb Hy. destruct (transcript_Some _ _ _ _ Ht) as (w2 & Hs).
  apply truthy_true in Hb.
  destruct (synthesis_Some _ _ _ _ _ _ Hs Hy) as (_ & s & Hp).
  destruct (voice_chat_answer _ _ _ _ _ _ Hs Hb Hp) as (w5 & E & _).
  rewrite E, Hy. simpl. repeat split.
  intros t Hy'.
  assert (Hs' : transcribed (with_tts t e) rq w = Some (T, w2)) by exact Hs.
  assert (Hp' : fst (read_system_prompt (with_tts t e) w2) = Ok s) by exact Hp.
  destruct (voice_chat_answer _ _ _ _ _ _ Hs' Hb Hp') as (w5' & E' & _).
  rewrite E', Hy'. reflexivity.
Qed.

(** C4 at a request made while no synthesis engine is installed, against the
    same request with both engines at work. *)
Lemma synthesis_failure_keeps_answer_witness :
  fst (voice_chat Sample.mute Sample.clip Sample.nowhere) =
    Reply (ChatReply (lit "Hallo") (lit "Was willst du kaufen?") None (lit "shopping")) /\
  fst (voice_chat Sample.all_well Sample.clip Sample.nowhere) =
    Reply (ChatReply (lit "Hallo") (lit "Was willst du kaufen?")
             (Some (lit "/audio/reply_20240101_000000.wav")) (lit "shopping")).
Proof.
  destruct (synthesis_failure_keeps_answer Sample.mute Sample.clip Sample.nowhere
              (lit "Hallo") (Exn Exception (lit "No TTS engine available")))
    as (_ & H1 & H2).
  - vm_compute. reflexivity.
  - vm_compute. discriminate.
  - vm_compute. reflexivity.
  - split.
    + rewrite H1. vm_compute. reflexivity.
    + change Sample.all_well with (with_tts Sample.both_engines Sample.mute).
      rewrite H2; vm_compute; reflexivity.
Defined.

(** *** C5 *)

Lemma slice_from_last {A} (n : Z) (l : list A) :
  (1 <= n)%Z -> slice_from (- n) l = drop (length l - Z.to_nat n) l.
Proof.
  intros Hn. unfold slice_from.
  destruct (Z.ltb_spec (- n) 0) as [_|H]; [|lia].
  f_equal. lia.
Qed.

Lemma load_lines_records rs : load_lines (map RecordLine rs) = Ok rs.
Proof. induction rs as [|c rs IH]; simpl; [reflexivity | now rewrite IH]. Qed.

Lemma drop_map_lines {A B} (f : A -> B) n (l : list A) :
  drop n (map f l) = map f (drop n l).
Proof.
  revert n. induction l as [|x l IH]; intros [|n]; simpl; try reflexivity. apply IH.
Qed.

(** C5, as amended.  On a history of records and for a limit [N] of at least
    one, ten when the query names none, the history endpoint returns the last
    [N] records, all of them when there are fewer, in the order in which they
    were appended; so at most [N], and a suffix of the history. *)
Theorem history_returns_most_recent (rs : list conversation) (limit : option Z)
    (w : world) :
  let N := default 10%Z limit in
  records w = map RecordLine rs ->
  (1 <= N)%Z ->
  get_history limit w = Conversations (drop (length rs - Z.to_nat N) rs) /\
  (Z.of_nat (length (conversations_of (get_history limit w))) <= N)%Z /\
  exists older, rs = older ++ conversations_of (get_history limit w).
Proof.
  intros N Hr Hn.
  assert (E : get_history limit w = Conversations (drop (length rs - Z.to_nat N) rs)).
  { unfold get_history, get_history_for. fold N. unfold records in Hr.
    destruct (history w) as [lines|]; simpl in Hr.
    - subst lines. rewrite slice_from_last by exact Hn.
      rewrite length_map, drop_map_lines, load_lines_records. reflexivity.
    - destruct rs; [|discriminate]. reflexivity. }
  rewrite E. simpl. split; [reflexivity|]. split.
  - rewrite length_drop. lia.
  - exists (take (length rs - Z.to_nat N) rs). symmetry. apply take_drop.
Qed.

(** The amended C5 on a history of two conversations and the limit one. *)
Lemma history_returns_most_recent_witness :
  get_history (Some 1%Z) Sample.two_talks = Conversations [Sample.second_talk] /\
  (Z.of_nat (length (conversations_of (get_history (Some 1%Z) Sample.two_talks))) <= 1)%Z /\
  exists older,
    [Sample.first_talk; Sample.second_talk]
      = older ++ conversations_of (get_history (Some 1%Z) Sample.two_talks).
Proof.
  apply (history_returns_most_recent [Sample.first_talk; Sample.second_talk] (Some 1%Z)
           Sample.two_talks).
  - reflexivity.
  - simpl. lia.
Defined.

(** C5 as stated fails for the limits below one: with the limit zero the
    endpoint returns the whole history, and with a negative limit it drops
    that many of the oldest records and returns the rest. *)
Lemma limit_below_one_not_respected :
  get_history (Some 0%Z) Sample.two_talks
    = Conversations [Sample.first_talk; Sample.second_talk] /\
  (Z.of_nat (length (conversations_of (get_history (Some 0%Z) Sample.two_talks))) > 0)%Z /\
  get_history (Some (-1)%Z) Sample.two_talks = Conversations [Sample.second_talk] /\
  (Z.of_nat (length (conversations_of (get_history (Some (-1)%Z) Sample.two_talks))) > -1)%Z.
Proof. vm_compute. repeat split. Qed.

(** *** C6 *)

Section OtherFiles.
Context (q : pystr).

Local Abbreviation at_q := (at_path q).

Lemma print_keeps_at_q s : keeps at_q (print s).
Proof. now intros w. Qed.

Lemma write_file_keeps_at_q p c : p <> q -> keeps at_q (write_file p c).
Proof. intros Hp w. unfold at_path. simpl. now apply lookup_insert_ne. Qed.

Lemma _pyttsx3_save_keeps_at_q e t p : p <> q -> keeps at_q (_pyttsx3_save e t p).
Proof.
  intros Hp w. unfold _pyttsx3_save.
  destruct (pyttsx3_run e _); [reflexivity|].
  apply (write_file_keeps_at_q p _ Hp (add_tts_call Offline w)).
Qed.

Lemma _edge_tts_save_keeps_at_q e t p v : p <> q -> keeps at_q (_edge_tts_save e t p v).
Proof.
  intros Hp w. unfold _edge_tts_save.
  destruct (edge_tts_run e); [reflexivity|].
  apply (write_file_keeps_at_q p _ Hp (add_tts_call Networked w)).
Qed.

Lemma append_history_keeps_at_q e c : keeps at_q (append_history e c).
Proof. intros w. unfold append_history. now destruct (history_append e). Qed.

#[local] Hint Resolve print_keeps_at_q _pyttsx3_save_keeps_at_q _edge_tts_save_keeps_at_q
  append_history_keeps_at_q : frame.

Lemma save_tts_audio_keeps_at_q e t p v o :
  p <> q -> keeps at_q (save_tts_audio e t p v o).
Proof. intros Hp. unfold save_tts_audio. frame. Qed.

#[local] Hint Resolve save_tts_audio_keeps_at_q : frame.

(** From the generation stage on, the handler writes one file only: the
    synthesized reply. *)
Lemma answering_keeps_at_q e rq T :
  tts_path_of e <> q ->
  keeps at_q
    (reply_text <- generating e (req_topic rq) T ;;
     tts <- synthesizing e reply_text ;;
     logging e (req_topic rq) T reply_text (fst tts) ;;
     print (lit "Returning successful response: user_text='" ++ T
            ++ lit "', reply_text='" ++ prefix_slice 50 reply_text
            ++ lit "...', tts_url='" ++ show_opt (snd tts) ++ lit "'") ;;
     ret (Reply (ChatReply T reply_text (snd tts) (req_topic rq)))).
Proof.
  intros Hp. unfold generating, synthesizing, logging. frame.
Qed.

End OtherFiles.

(** X3.  Once the upload is written to the scratch file, the scratch file is
    gone when the request is answered. *)
Lemma scratch_file_removed_once_written e rq w p w1 :
  receiving_audio e rq w = (Ok p, w1) ->
  tts_path_of e <> p ->
  files (snd (voice_chat e rq w)) !! p = None.
Proof.
  intros Hr Hp.
  destruct (transcribed_after_receiving _ _ _ _ _ Hr)
    as (T & w2 & _ & Ht & _ & _ & Hd & _).
  assert (Hn : files w2 !! p = None) by (rewrite Hd; apply lookup_delete_eq).
  unfold voice_chat, voice_chat_try.
  rewrite (bind_ok _ _ _ _ _ Hr), (bind_ok _ _ _ _ _ Ht).
  destruct (negb (truthy (strip T))); [exact Hn|].
  pose proof (answering_keeps_at_q p e rq T Hp w2) as K. unfold at_path in K.
  match goal with
  | K : files (snd (?m w2)) !! p = _ |- context [?m' w2] =>
      change (m' w2) with (m w2); destruct (m w2) as [[r|ex] w5]
  end; simpl in *; congruence.
Qed.

(** When the scratch file is created and the upload cannot be written to it,
    the request is answered with 500 and the scratch file stays. *)
Lemma scratch_file_left_when_write_fails e rq w name ex :
  NamedTemporaryFile e = Ok name ->
  temp_audio_write e = Some ex ->
  status_of (fst (voice_chat e rq w)) = 500%nat /\
  files (snd (voice_chat e rq w)) !! name = Some [].
Proof.
  intros Hn Hw.
  assert (Hr : receiving_audio e rq w = (Raise ex, set_files (<[name := []]> (files w)) w)).
  { unfold receiving_audio, save_upload, bind, write_file, raise. now rewrite Hn, Hw. }
  destruct (voice_chat_raise _ _ _ _ _ Hr) as [_ E]. rewrite E. simpl.
  split; [reflexivity | apply lookup_insert_eq].
Qed.

(** C6 fails on the code.  With a full disk the scratch file is created, the
    write of the upload raises, the request is answered with 500, and the
    empty scratch file is still there. *)
Theorem scratch_file_leaked_on_full_disk :
  NamedTemporaryFile Sample.disk_full = Ok Sample.scratch /\
  fst (voice_chat Sample.disk_full Sample.clip Sample.nowhere)
    = JSONResponse 500 (lit "Processing failed: [Errno 28] No space left on device") /\
  files Sample.nowhere !! Sample.scratch = None /\
  files (snd (voice_chat Sample.disk_full Sample.clip Sample.nowhere)) !! Sample.scratch
    = Some [].
Proof. vm_compute. repeat split. Qed.

(** *** C7 *)

(** C7, as amended.  On a clip on which the engine fails, [transcribe_audio]
    raises nothing.  It returns the empty string when the engine is missing,
    the clip is empty, the model does not load or decoding fails, and the
    marker "[Kein Audio erkannt]" when nothing was recognized.  The handler
    answers the empty string with 400, not with the 500 of an exception.  It
    goes on with the marker as with any other text: the system prompt is
    read, and the answer is a 200 with the marker as user text, or the 500 of
    the exception that reading the prompt raised. *)
Theorem engine_fault_is_absorbed e rq w p w1 k :
  receiving_audio e rq w = (Ok p, w1) ->
  engine_fault_of e (audio_content rq) = Some k ->
  fst (transcribe_audio e p w1) = Ok (fault_transcript k) /\
  transcript e rq w = Some (fault_transcript k) /\
  match k with
  | EmptyRecognition =>
      fault_transcript k = no_speech /\
      match prompt_read e rq w with
      | Some (Ok _) =>
          exists r, fst (voice_chat e rq w) = Reply r /\ user_text r = no_speech
      | Some (Raise ex) =>
          fst (voice_chat e rq w)
            = JSONResponse 500 (lit "Processing failed: " ++ exn_msg ex)
      | None => False
      end
  | _ =>
      fault_transcript k = [] /\
      prompt_read e rq w = None /\
      fst (voice_chat e rq w) = JSONResponse 400 (lit "Could not transcribe audio")
  end.
Proof.
  intros Hr Hk.
  destruct (transcribed_after_receiving _ _ _ _ _ Hr)
    as (T & w2 & Ht & _ & Ha & Hf & _).
  rewrite (transcribe_audio_result e p w1 _ Hf), Hk in Ha.
  injection Ha as <-.
  split; [now rewrite (transcribe_audio_result e p w1 _ Hf), Hk|].
  split; [unfold transcript; now rewrite Ht|].
  destruct k; simpl in Ht |- *;
    try (split; [reflexivity|];
         split; [unfold prompt_read; now rewrite Ht, strip_empty|];
         rewrite (voice_chat_blank _ _ _ _ _ Ht); [reflexivity|];
         now rewrite strip_empty).
  split; [reflexivity|].
  assert (Hb : truthy (strip no_speech) = true) by now rewrite strip_no_speech.
  rewrite (prompt_read_at _ _ _ _ _ Ht Hb).
  destruct (fst (read_system_prompt e w2)) as [s|ex] eqn:Hp.
  - destruct (voice_chat_answer _ _ _ _ _ _ Ht Hb Hp) as (w5 & E & _).
    rewrite E. simpl. eauto.
  - destruct (voice_chat_no_prompt _ _ _ _ _ _ Ht Hb Hp) as [_ E]. now rewrite E.
Qed.

(** The amended C7 at a request made while the whisper package is missing. *)
Lemma engine_fault_is_absorbed_witness :
  transcript Sample.whisper_missing Sample.clip Sample.nowhere = Some [] /\
  fst (voice_chat Sample.whisper_missing Sample.clip Sample.nowhere)
    = JSONResponse 400 (lit "Could not transcribe audio").
Proof.
  destruct (engine_fault_is_absorbed Sample.whisper_missing Sample.clip Sample.nowhere
              Sample.scratch
              (snd (receiving_audio Sample.whisper_missing Sample.clip Sample.nowhere))
              MissingEngine)
    as (_ & H1 & _ & _ & H2).
  - vm_compute. reflexivity.
  - vm_compute. reflexivity.
  - split; [exact H1 | exact H2].
Defined.

(** C7 as stated fails twice.  With the engine missing, [transcribe_audio]
    returns the empty string, which is not the marker; and when nothing is
    recognized and the marker is returned, the handler answers 200 as for any
    recognized text. *)
Lemma empty_string_is_not_the_marker :
  engine_fault_of Sample.whisper_missing (audio_content Sample.clip) = Some MissingEngine /\
  fst (transcribe_audio Sample.whisper_missing Sample.scratch
         (snd (receiving_audio Sample.whisper_missing Sample.clip Sample.nowhere))) = Ok [] /\
  no_speech <> [] /\
  engine_fault_of Sample.silence (audio_content Sample.clip) = Some EmptyRecognition /\
  fst (transcribe_audio Sample.silence Sample.scratch
         (snd (receiving_audio Sample.silence Sample.clip Sample.nowhere))) = Ok no_speech /\
  status_of (fst (voice_chat Sample.silence Sample.clip Sample.nowhere)) = 200%nat.
Proof. vm_compute. repeat split. discriminate. Qed.

(** *** C8 *)

Lemma offline_runs_add_tts_call b w :
  offline_runs (add_tts_call b w) = (offline_runs w + if is_offline b then 1 else 0)%nat.
Proof.
  unfold offline_runs. simpl. rewrite List.filter_app, length_app. simpl.
  destruct b; simpl; lia.
Qed.

Lemma offline_runs_add_stdout s w : offline_runs (add_stdout s w) = offline_runs w.
Proof. reflexivity. Qed.

Lemma offline_runs_set_files f w : offline_runs (set_files f w) = offline_runs w.
Proof. reflexivity. Qed.

(** [save_tts_audio] with [prefer_offline], once the output directory is
    there, runs the engines of [synthesis_plan] in that order and returns when
    the last of them succeeded; it raises otherwise. *)
Lemma save_tts_audio_follows_plan e text path voice w :
  mkdir e = None ->
  tts_calls (snd (save_tts_audio e text path voice true w))
    = tts_calls w ++ fst (synthesis_plan e (offline_runs w)) /\
  (snd (synthesis_plan e (offline_runs w)) = true <->
   fst (save_tts_audio e text path voice true w) = Ok tt).
Proof.
  intros Hm.
  unfold save_tts_audio, synthesis_plan, make_parent_dir, bind, try_except,
    _pyttsx3_save, _edge_tts_save, write_file, print, raise, ret.
  rewrite Hm. simpl.
  destruct (PYTTSX3_AVAILABLE e); simpl.
  - destruct (pyttsx3_run e (offline_runs w)) as [ex|]; simpl.
    2:{ split; [reflexivity | tauto]. }
    destruct (EDGE_TTS_AVAILABLE e); simpl.
    + destruct (edge_tts_run e) as [ex'|]; simpl.
      2:{ rewrite <- app_assoc. split; [reflexivity | tauto]. }
      repeat (rewrite offline_runs_add_stdout || rewrite offline_runs_add_tts_call).
      simpl. rewrite Nat.add_0_r.
      destruct (pyttsx3_run e (offline_runs w + 1)) as [ex''|]; simpl;
        rewrite <- !app_assoc; (split; [reflexivity | split; congruence]).
    + repeat (rewrite offline_runs_add_stdout || rewrite offline_runs_add_tts_call).
      simpl.
      destruct (pyttsx3_run e (offline_runs w + 1)) as [ex''|]; simpl;
        rewrite <- !app_assoc; (split; [reflexivity | split; congruence]).
  - destruct (EDGE_TTS_AVAILABLE e); simpl.
    + destruct (edge_tts_run e) as [ex'|]; simpl;
        (split; [reflexivity | split; congruence]).
    + rewrite app_nil_r. split; [reflexivity | split; congruence].
Qed.

Lemma synthesizing_returns e R : returns (synthesizing e R).
Proof.
  intros w. destruct (synthesizing_run e R w) as (w4 & E & _). rewrite E. eauto.
Qed.

(** C8, as amended.  With [prefer_offline], [save_tts_audio] runs the offline
    engine first when it is installed; when that run fails, or the engine is
    not installed, it runs the networked engine when that is installed; when
    that run fails too, or that engine is not installed, it runs the offline
    engine once more when it is installed.  It returns as soon as a run
    succeeds and raises to the handler when none did or no engine is
    installed.  The handler's synthesis stage catches what is raised: a
    request that gets to the synthesis call is answered with 200 whatever the
    call does, with the URL of the audio when it returned and none when it
    raised. *)
Theorem synthesis_fallback_order e text path voice w :
  mkdir e = None ->
  (tts_calls (snd (save_tts_audio e text path voice true w))
     = tts_calls w ++ fst (synthesis_plan e (offline_runs w)) /\
   (snd (synthesis_plan e (offline_runs w)) = true <->
    fst (save_tts_audio e text path voice true w) = Ok tt)) /\
  (forall R, returns (synthesizing e R)) /\
  (forall rq w0 outcome, synthesis e rq w0 = Some outcome ->
     status_of (fst (voice_chat e rq w0)) = 200%nat /\
     exists a, fst (voice_chat e rq w0) = Reply a /\
               tts_url a = match outcome with
                           | Ok _ => Some (lit "/audio/" ++ tts_filename_of e)
                           | Raise _ => None
                           end).
Proof.
  intros Hm. split; [now apply save_tts_audio_follows_plan|].
  split; [apply synthesizing_returns|].
  intros rq w0 outcome Hy.
  destruct (transcribed e rq w0) as [[T w2]|] eqn:Hs.
  2:{ unfold synthesis in Hy. rewrite Hs in Hy. discriminate. }
  destruct (synthesis_Some _ _ _ _ _ _ Hs Hy) as (Hb & s & Hp).
  destruct (voice_chat_answer _ _ _ _ _ _ Hs Hb Hp) as (w5 & E & _).
  rewrite E, Hy. simpl. split; [reflexivity|].
  eexists. split; [reflexivity|]. simpl. now destruct outcome.
Qed.

(** The amended C8 where the offline engine fails once and the networked
    engine is not installed: the offline engine is run twice, the second run
    succeeds, and the request is answered with 200. *)
Lemma synthesis_fallback_order_witness :
  tts_calls (snd (save_tts_audio (with_tts Sample.offline_recovers Sample.all_well)
                    (lit "Was willst du kaufen?") (lit "data/audio/reply.wav")
                    default_voice true Sample.nowhere))
    = [Offline; Offline] /\
  status_of (fst (voice_chat (with_tts Sample.offline_recovers Sample.all_well)
                    Sample.clip Sample.nowhere)) = 200%nat.
Proof.
  destruct (synthesis_fallback_order (with_tts Sample.offline_recovers Sample.all_well)
              (lit "Was willst du kaufen?") (lit "data/audio/reply.wav")
              default_voice Sample.nowhere)
    as ((H1 & _) & _ & H2).
  - vm_compute. reflexivity.
  - split.
    + rewrite H1. vm_compute. reflexivity.
    + apply (H2 Sample.clip Sample.nowhere (Ok tt)).
      vm_compute. reflexivity.
Defined.

(** C8 as stated fails when the offline engine fails on its first run and
    the networked engine is absent: the operation does not report a failure
    but runs the offline engine again, and returns when that run succeeds. *)
Lemma offline_engine_is_retried :
  PYTTSX3_AVAILABLE (with_tts Sample.offline_recovers Sample.all_well) = true /\
  succeeded (pyttsx3_run (with_tts Sample.offline_recovers Sample.all_well) 0) = false /\
  EDGE_TTS_AVAILABLE (with_tts Sample.offline_recovers Sample.all_well) = false /\
  fst (save_tts_audio (with_tts Sample.offline_recovers Sample.all_well)
         (lit "Was willst du kaufen?") (lit "data/audio/reply.wav")
         default_voice true Sample.nowhere) = Ok tt /\
  tts_calls (snd (save_tts_audio (with_tts Sample.offline_recovers Sample.all_well)
                    (lit "Was willst du kaufen?") (lit "data/audio/reply.wav")
                    default_voice true Sample.nowhere))
    = [Offline; Offline].
Proof. vm_compute. repeat split. Qed.

(** *** C9 *)

(** The handler's [try] raises what receiving the upload raised, or what
    reading the system prompt raised after a transcript that is not blank:
    no other stage lets an exception through. *)
Lemma voice_chat_try_raise e rq w ex w' :
  voice_chat_try e rq w = (Raise ex, w') ->
  receiving_audio e rq w = (Raise ex, w') \/
  (exists T, transcribed e rq w = Some (T, w') /\ truthy (strip T) = true /\
             fst (read_system_prompt e w') = Raise ex).
Proof.
  intros H.
  destruct (receiving_audio e rq w) as [[p|ex0] w1] eqn:Hr.
  - destruct (transcribed_after_receiving _ _ _ _ _ Hr) as (T & w2 & Ht & _).
    destruct (truthy (strip T)) eqn:Hb.
    + destruct (fst (read_system_prompt e w2)) as [s|ex1] eqn:Hp.
      * exfalso. destruct (voice_chat_answer _ _ _ _ _ _ Ht Hb Hp) as (w5 & E & _).
        unfold voice_chat in E. rewrite H in E. discriminate.
      * destruct (voice_chat_no_prompt _ _ _ _ _ _ Ht Hb Hp) as [E _].
        rewrite E in H. injection H as -> ->. right. eauto.
    + exfalso. pose proof (voice_chat_blank _ _ _ _ _ Ht Hb) as E.
      unfold voice_chat in E. rewrite H in E. discriminate.
  - left. destruct (voice_chat_raise _ _ _ _ _ Hr) as [E _]. congruence.
Qed.

(** C9, as amended.  When the handler's processing raises, as it does when
    the scratch file cannot be created or written, the endpoint answers 500
    with the error "Processing failed: " followed by the message of the
    exception; the same message is printed to the log, with a traceback. *)
Theorem hard_failure_reports_message e rq w ex w1 :
  voice_chat_try e rq w = (Raise ex, w1) ->
  fst (voice_chat e rq w) = JSONResponse 500 (lit "Processing failed: " ++ exn_msg ex) /\
  In (lit "Request processing failed with error: " ++ exn_msg ex)
     (stdout (snd (voice_chat e rq w))) /\
  In ex (tracebacks (snd (voice_chat e rq w))).
Proof.
  intros H. unfold voice_chat. rewrite H. simpl.
  split; [reflexivity|]. split; apply in_or_app.
  - left. apply in_or_app. right. now left.
  - right. now left.
Qed.

(** The amended C9 at a request made while the disk is full. *)
Lemma hard_failure_reports_message_witness :
  fst (voice_chat Sample.disk_full Sample.clip Sample.nowhere)
    = JSONResponse 500 (lit "Processing failed: " ++ lit "[Errno 28] No space left on device") /\
  In (lit "Request processing failed with error: " ++ lit "[Errno 28] No space left on device")
     (stdout (snd (voice_chat Sample.disk_full Sample.clip Sample.nowhere))) /\
  In (Exn OSError (lit "[Errno 28] No space left on device"))
     (tracebacks (snd (voice_chat Sample.disk_full Sample.clip Sample.nowhere))).
Proof.
  apply (hard_failure_reports_message Sample.disk_full Sample.clip Sample.nowhere
           (Exn OSError (lit "[Errno 28] No space left on device"))
           (snd (voice_chat_try Sample.disk_full Sample.clip Sample.nowhere))).
  vm_compute. reflexivity.
Defined.

(** C9 as stated fails: the answer to a request made while the disk is full
    is not generic, it ends with the message of the operating system's
    error. *)
Lemma fault_answer_carries_the_message :
  temp_audio_write Sample.disk_full
    = Some (Exn OSError (lit "[Errno 28] No space left on device")) /\
  fst (voice_chat Sample.disk_full Sample.clip Sample.nowhere)
    = JSONResponse 500 (lit "Processing failed: " ++ lit "[Errno 28] No space left on device").
Proof. vm_compute. repeat split. Qed.

(** *** C10 *)

Lemma transcribing_try_returns e p : returns (transcribing_try e p).
Proof. unfold transcribing_try. frame. Qed.

(** C10.  Whatever the path, [transcribe_audio] returns: an exception of the
    library is caught inside it and the empty string returned in its place.
    So the [try] around the call in the handler never raises and its [except]
    branch with the re-raise is never entered: once the upload is received,
    the transcribing stage returns.  What the handler's processing raises,
    and answers with 500, is what receiving the upload raised or what reading
    the system prompt raised, never something from the transcription. *)
Theorem engine_errors_stay_in_transcribe_audio e p w :
  (exists T w', transcribe_audio e p w = (Ok T, w')) /\
  (forall ex,
     fst (_transcribe_with_library e p (lit "tiny") (at_library_call p w)) = Raise ex ->
     fst (transcribe_audio e p w) = Ok []) /\
  (exists T w', transcribing_try e p w = (Ok T, w')) /\
  (forall rq w0 p0 w1,
     receiving_audio e rq w0 = (Ok p0, w1) ->
     exists T w2, transcribing e p0 w1 = (Ok T, w2)) /\
  (forall rq w0 ex w',
     voice_chat_try e rq w0 = (Raise ex, w') ->
     receiving_audio e rq w0 = (Raise ex, w') \/
     prompt_read e rq w0 = Some (Raise ex)).
Proof.
  split; [apply transcribe_audio_returns|].
  split.
  { intros ex H. rewrite transcribe_audio_by_library. now rewrite H. }
  split; [apply transcribing_try_returns|].
  split.
  { intros rq w0 p0 w1 Hr.
    destruct (transcribed_after_receiving _ _ _ _ _ Hr) as (T & w2 & _ & Ht & _). eauto. }
  intros rq w0 ex w' H.
  destruct (voice_chat_try_raise _ _ _ _ _ H) as [Hr|(T & Ht & Hb & Hp)]; [now left|].
  right. now rewrite (prompt_read_at _ _ _ _ _ Ht Hb), Hp.
Qed.

(** C10 where the whisper package is missing: the library raises, and
    [transcribe_audio] returns the empty string. *)
Lemma engine_errors_stay_in_transcribe_audio_witness :
  fst (transcribe_audio Sample.whisper_missing Sample.scratch Sample.nowhere) = Ok [].
Proof.
  destruct (engine_errors_stay_in_transcribe_audio
              Sample.whisper_missing Sample.scratch Sample.nowhere) as (_ & H & _).
  apply (H (Exn Exception
              (lit "Cannot import whisper library: No module named 'whisper'"))).
  vm_compute. reflexivity.
Defined.

(** * Beyond the claims *)

Arguments prefix_slice : simpl never.

(** ** [str.strip] *)

Transparent strip.

Lemma lstrip_clean s : lstrip (lstrip s) = lstrip s.
Proof.
  induction s as [|c s IH]; simpl; [reflexivity|].
  destruct (is_space c) eqn:E; [exact IH | simpl; now rewrite E].
Qed.

Lemma lstrip_app_nonspace l c : is_space c = false -> lstrip (l ++ [c]) = lstrip l ++ [c].
Proof.
  intros Hc. induction l as [|a l IH]; simpl.
  - now rewrite Hc.
  - destruct (is_space a); [exact IH | reflexivity].
Qed.

Lemma lstrip_id_head c s : is_space c = false -> lstrip (c :: s) = c :: s.
Proof. intros Hc. simpl. now rewrite Hc. Qed.

(** What [strip] returns neither starts nor ends with white space, so that
    stripping it again changes nothing. *)
Lemma strip_shape s :
  strip s = [] \/
  exists c mid d, is_space c = false /\ is_space d = false /\
                  (strip s = [c] \/ strip s = c :: mid ++ [d]).
Proof.
  unfold strip, rstrip.
  destruct (lstrip s) as [|c t] eqn:E; [now left|].
  pose proof (lstrip_head _ _ _ E) as Hc. right.
  change (rev (c :: t)) with (rev t ++ [c]).
  rewrite (lstrip_app_nonspace _ _ Hc), rev_app_distr. simpl.
  destruct (lstrip (rev t)) as [|d u] eqn:E2; simpl.
  - exists c, [], c. auto.
  - pose proof (lstrip_head _ _ _ E2) as Hd.
    exists c, (rev u), d. auto.
Qed.

Lemma strip_idempotent s : strip (strip s) = strip s.
Proof.
  destruct (strip_shape s) as [E | (c & mid & d & Hc & Hd & [E | E])]; rewrite E.
  - reflexivity.
  - unfold strip, rstrip. rewrite (lstrip_id_head _ _ Hc). simpl. now rewrite Hc.
  - unfold strip, rstrip. rewrite (lstrip_id_head _ _ Hc).
    change (rev (c :: mid ++ [d])) with (rev (mid ++ [d]) ++ [c]).
    rewrite rev_app_distr. simpl. rewrite Hd. simpl.
    rewrite rev_app_distr, rev_involutive. reflexivity.
Qed.

Opaque strip.

(** ** whisper_service.py and the handler's test for an empty transcript *)

(** What the library returns is stripped and not empty. *)
Lemma _transcribe_with_library_ok_stripped e p m w t w' :
  _transcribe_with_library e p m w = (Ok t, w') -> strip t = t /\ t <> [].
Proof.
  intros H. destruct (files w !! p) as [audio|] eqn:Hf.
  - pose proof (_transcribe_with_library_result e p m w audio Hf) as R.
    rewrite H in R. simpl in R.
    destruct (engine_fault_of e audio) as [k|] eqn:Hk.
    + destruct R as [_ ->]. split; [apply strip_no_speech | discriminate].
    + destruct R as (r & Hr & ->). split; [apply strip_idempotent|].
      unfold engine_fault_of in Hk.
      destruct (import_whisper e); [discriminate|].
      destruct audio; [discriminate|].
      destruct (load_model e); [discriminate|].
      rewrite Hr in Hk.
      destruct (truthy (strip (wr_text r))) eqn:Et; [|discriminate].
      now apply truthy_true.
  - exfalso. revert H.
    unfold _transcribe_with_library, try_except, bind, run_import_whisper,
      os_path_exists, print, raise, ret.
    destruct (import_whisper e) as [ex|]; simpl.
    { destruct (is_ImportError (exn_type ex)); discriminate. }
    rewrite Hf. rewrite bool_decide_false by (intros [? ?]; discriminate).
    simpl. discriminate.
Qed.

(** X1.  Whatever the path and the world, [transcribe_audio] returns a text
    that is already stripped: the empty string, the marker, or the stripped
    recognition.  The handler's test [not user_text.strip()] therefore
    rejects the empty string and nothing else. *)
Theorem transcript_is_already_stripped e p w :
  exists T w',
    transcribe_audio e p w = (Ok T, w') /\
    strip T = T /\
    truthy (strip T) = truthy T.
Proof.
  destruct (transcribe_audio_returns e p w) as (T & w' & E).
  exists T, w'. split; [exact E|].
  assert (S : strip T = T).
  { pose proof (transcribe_audio_by_library e p w) as B. rewrite E in B. simpl in B.
    destruct (_transcribe_with_library e p (lit "tiny") (at_library_call p w))
      as [[t|ex] w1] eqn:L; simpl in B; injection B as ->.
    - now destruct (_transcribe_with_library_ok_stripped _ _ _ _ _ _ L).
    - apply strip_empty. }
  split; [exact S | now rewrite S].
Qed.

(** X2.  When the upload was written to the scratch file and the engine
    recognizes a text that is not blank, the request gets to the system
    prompt.  When the prompt is read, the answer is a 200 whose user text is
    the recognized text, stripped, and whose topic is the form's topic, or
    "general conversation" when the form has none or an empty one.  When
    reading the prompt file raises, the answer is the 500 of that exception
    and the history is left as it was. *)
Theorem answer_carries_recognized_text e rq w p w1 r :
  receiving_audio e rq w = (Ok p, w1) ->
  engine_fault_of e (audio_content rq) = None ->
  model_transcribe e (audio_content rq) = Ok r ->
  match prompt_read e rq w with
  | Some (Ok _) =>
      exists a,
        fst (voice_chat e rq w) = Reply a /\
        user_text a = strip (wr_text r) /\
        (forall t, form_topic rq = Some t -> t <> [] -> topic a = t) /\
        (form_topic rq = None \/ form_topic rq = Some [] ->
         topic a = lit "general conversation")
  | Some (Raise ex) =>
      fst (voice_chat e rq w) = JSONResponse 500 (lit "Processing failed: " ++ exn_msg ex) /\
      history (snd (voice_chat e rq w)) = history w
  | None => False
  end.
Proof.
  intros Hr Hk Hm.
  destruct (transcribed_after_receiving _ _ _ _ _ Hr)
    as (T & w2 & Ht & _ & Ha & Hf & _).
  rewrite (transcribe_audio_result e p w1 _ Hf), Hk, Hm in Ha.
  injection Ha as <-.
  assert (Hb : truthy (strip (strip (wr_text r))) = true).
  { rewrite strip_idempotent. unfold engine_fault_of in Hk.
    destruct (import_whisper e); [discriminate|].
    destruct (audio_content rq); [discriminate|].
    destruct (load_model e); [discriminate|].
    rewrite Hm in Hk. now destruct (truthy (strip (wr_text r))). }
  rewrite (prompt_read_at _ _ _ _ _ Ht Hb).
  destruct (fst (read_system_prompt e w2)) as [s|ex] eqn:Hp.
  - destruct (voice_chat_answer _ _ _ _ _ _ Ht Hb Hp) as (w5 & E & _).
    rewrite E. simpl. eexists. split; [reflexivity|]. simpl.
    split; [reflexivity|]. unfold req_topic. split.
    + intros t -> Hn. now destruct t.
    + now intros [->| ->].
  - destruct (voice_chat_no_prompt _ _ _ _ _ _ Ht Hb Hp) as [_ E]. rewrite E.
    split; [reflexivity|]. simpl. eapply transcribed_history; eassumption.
Qed.

(** X2 at a request with every engine at work and no prompt file, and at the
    same request where the prompt file is there and may not be read. *)
Lemma answer_carries_recognized_text_witness :
  (exists a,
     fst (voice_chat Sample.all_well Sample.clip Sample.nowhere) = Reply a /\
     user_text a = strip (lit " Hallo") /\
     topic a = lit "shopping") /\
  fst (voice_chat Sample.prompt_unreadable Sample.clip Sample.prompt_on_disk)
    = JSONResponse 500
        (lit "Processing failed: "
         ++ lit "[Errno 13] Permission denied: 'backend/prompts/system_prompt.txt'") /\
  history (snd (voice_chat Sample.prompt_unreadable Sample.clip Sample.prompt_on_disk))
    = history Sample.prompt_on_disk.
Proof.
  split.
  - pose proof (answer_carries_recognized_text Sample.all_well Sample.clip Sample.nowhere
                  Sample.scratch
                  (snd (receiving_audio Sample.all_well Sample.clip Sample.nowhere))
                  (WhisperResult (lit " Hallo") (Some (lit "de")))) as H.
    assert (Hp : prompt_read Sample.all_well Sample.clip Sample.nowhere
                 = Some (Ok default_system_prompt)) by (vm_compute; reflexivity).
    rewrite Hp in H.
    destruct H as (a & H1 & H2 & H3 & _).
    + vm_compute. reflexivity.
    + vm_compute. reflexivity.
    + vm_compute. reflexivity.
    + exists a. split; [exact H1|]. split; [exact H2|].
      apply H3; [reflexivity | vm_compute; discriminate].
  - pose proof (answer_carries_recognized_text Sample.prompt_unreadable Sample.clip
                  Sample.prompt_on_disk Sample.scratch
                  (snd (receiving_audio Sample.prompt_unreadable Sample.clip
                          Sample.prompt_on_disk))
                  (WhisperResult (lit " Hallo") (Some (lit "de")))) as H.
    assert (Hp : prompt_read Sample.prompt_unreadable Sample.clip Sample.prompt_on_disk
                 = Some (Raise (Exn PermissionError
                      (lit "[Errno 13] Permission denied: 'backend/prompts/system_prompt.txt'"))))
      by (vm_compute; reflexivity).
    rewrite Hp in H. apply H.
    + vm_compute. reflexivity.
    + vm_compute. reflexivity.
    + vm_compute. reflexivity.
Defined.

(** The scratch file of a request whose upload was written, X3, at a request
    with every engine at work. *)
Lemma scratch_file_removed_once_written_witness :
  files (snd (voice_chat Sample.all_well Sample.clip Sample.nowhere)) !! Sample.scratch = None.
Proof.
  apply (scratch_file_removed_once_written Sample.all_well Sample.clip Sample.nowhere
           Sample.scratch
           (snd (receiving_audio Sample.all_well Sample.clip Sample.nowhere))).
  - vm_compute. reflexivity.
  - vm_compute. discriminate.
Defined.

(** ** The handler: what an answer says about the world it leaves *)

(** An answer with a reply comes from a transcript that is not blank. *)
Lemma voice_chat_reply_inv e rq w a :
  fst (voice_chat e rq w) = Reply a ->
  exists T w2 s,
    transcribed e rq w = Some (T, w2) /\ truthy (strip T) = true /\
    fst (read_system_prompt e w2) = Ok s /\
    a = ChatReply T (reply_of e rq w T) (tts_url_of e (synthesis e rq w)) (req_topic rq).
Proof.
  intros H. destruct (transcribed e rq w) as [[T w2]|] eqn:Ht.
  - destruct (truthy (strip T)) eqn:Hb.
    + destruct (fst (read_system_prompt e w2)) as [s|ex] eqn:Hp.
      * destruct (voice_chat_answer _ _ _ _ _ _ Ht Hb Hp) as (w5 & E & _).
        rewrite E in H. simpl in H. injection H as <-. eauto 8.
      * destruct (voice_chat_no_prompt _ _ _ _ _ _ Ht Hb Hp) as [_ E].
        rewrite E in H. discriminate.
    + rewrite (voice_chat_blank _ _ _ _ _ Ht Hb) in H. discriminate.
  - destruct (transcribed_None _ _ _ Ht) as (ex & w1 & Hr).
    destruct (voice_chat_raise _ _ _ _ _ Hr) as [_ E]. rewrite E in H. discriminate.
Qed.

Lemma logging_keeps_files e topic T R fn : keeps files (logging e topic T R fn).
Proof.
  intros w. unfold logging, try_except, bind, append_history, print.
  destruct (history_append e); reflexivity.
Qed.

Lemma synthesizing_files e R w :
  files (snd (synthesizing e R w))
    = files (snd (save_tts_audio e R (tts_path_of e) default_voice true w)).
Proof.
  unfold synthesizing, try_except, bind.
  destruct (save_tts_audio e R (tts_path_of e) default_voice true w) as [[[]|ex] w'];
    reflexivity.
Qed.

(** After an answer with a reply, the files are those the synthesis call
    left. *)
Lemma voice_chat_files e rq w T w2 s :
  transcribed e rq w = Some (T, w2) ->
  truthy (strip T) = true ->
  fst (read_system_prompt e w2) = Ok s ->
  exists w3,
    files w3 = files w2 /\
    synthesis e rq w
      = Some (fst (save_tts_audio e (reply_of e rq w T) (tts_path_of e) default_voice true w3)) /\
    files (snd (voice_chat e rq w))
      = files (snd (save_tts_audio e (reply_of e rq w T) (tts_path_of e) default_voice true w3)).
Proof.
  intros Ht Hb Hp. destruct (transcribed_Some _ _ _ _ _ Ht) as (p & w1 & Hr & Hs).
  unfold reply_of, generation, synthesis. rewrite Ht, Hb, (read_system_prompt_ok _ _ _ Hp).
  destruct (generating_run e (req_topic rq) T w2 s Hp) as (w3 & Hg & Hf3 & _).
  set (R := match fst (ask_ollama e (full_prompt s (req_topic rq) T) w2) with
            | Ok r => r | Raise _ => fallback_reply T end) in *.
  assert (ER : match fst (ask_ollama e (full_prompt s (req_topic rq) T) w2) with
               | Ok r => r | Raise _ => fallback_reply T end = R) by reflexivity.
  rewrite Hg. exists w3. split; [exact Hf3|]. split.
  { destruct (fst (ask_ollama e (full_prompt s (req_topic rq) T) w2)); reflexivity. }
  assert (E : files (snd (voice_chat e rq w))
              = files (snd (save_tts_audio e R (tts_path_of e) default_voice true w3))).
  { destruct (synthesizing_run e R w3) as (w4 & Hy & _).
    pose proof (synthesizing_files e R w3) as Hf4. rewrite Hy in Hf4. simpl in Hf4.
    unfold voice_chat, voice_chat_try.
    rewrite (bind_ok _ _ _ _ _ Hr), (bind_ok _ _ _ _ _ Hs), Hb.
    change (negb true) with false. cbv iota.
    rewrite (bind_ok _ _ _ _ _ Hg), (bind_ok _ _ _ _ _ Hy).
    match goal with |- context [bind (logging ?a ?b ?c ?d ?f) ?k w4] =>
      assert (K : keeps files (bind (logging a b c d f) k))
        by (apply keeps_bind; [apply logging_keeps_files|];
            intros ?; apply keeps_bind; [apply print_keeps_files|];
            intros ?; apply keeps_ret);
      specialize (K w4);
      destruct (bind (logging a b c d f) k w4) as [[r|ex] w5]
    end; simpl in K |- *; congruence. }
  rewrite E. destruct (fst (ask_ollama e (full_prompt s (req_topic rq) T) w2)); reflexivity.
Qed.

(** When [save_tts_audio] returns, the output file holds what the engine
    wrote. *)
Lemma save_tts_audio_ok_writes e t p v o w :
  fst (save_tts_audio e t p v o w) = Ok tt ->
  files (snd (save_tts_audio e t p v o w)) !! p = Some (synthesized e).
Proof.
  unfold save_tts_audio, make_parent_dir, bind, try_except,
    _pyttsx3_save, _edge_tts_save, write_file, print, raise, ret.
  destruct (mkdir e); simpl; [discriminate|].
  destruct o, (PYTTSX3_AVAILABLE e), (EDGE_TTS_AVAILABLE e); simpl;
    repeat match goal with
           | |- context [match pyttsx3_run e ?n with _ => _ end] =>
               destruct (pyttsx3_run e n); simpl
           | |- context [match edge_tts_run e with _ => _ end] =>
               destruct (edge_tts_run e); simpl
           end;
    try discriminate; intros _; apply lookup_insert_eq.
Qed.

(** The audio an answer refers to is there. *)
Lemma reply_audio_served e rq w a u :
  fst (voice_chat e rq w) = Reply a ->
  tts_url a = Some u ->
  u = lit "/audio/" ++ tts_filename_of e /\
  files (snd (voice_chat e rq w)) !! tts_path_of e = Some (synthesized e).
Proof.
  intros H Hu. destruct (voice_chat_reply_inv _ _ _ _ H) as (T & w2 & s & Ht & Hb & Hp & ->).
  destruct (voice_chat_files _ _ _ _ _ _ Ht Hb Hp) as (w3 & _ & Hy & Hf).
  simpl in Hu. rewrite Hy in Hu. simpl in Hu.
  destruct (fst (save_tts_audio e (reply_of e rq w T) (tts_path_of e) default_voice true w3))
    as [[]|ex] eqn:Es; [|discriminate].
  injection Hu as <-. split; [reflexivity|].
  rewrite Hf. now apply save_tts_audio_ok_writes.
Qed.

(** X4.  The URL of a 200 answer is never dangling: when [tts_url] is not
    null it is "/audio/" followed by the file name of the request, and the
    audio endpoint, asked for that name in the world the request left, serves
    the file the synthesis engine wrote. *)
Theorem audio_reference_resolves e rq w a u :
  fst (voice_chat e rq w) = Reply a ->
  tts_url a = Some u ->
  u = lit "/audio/" ++ tts_filename_of e /\
  get_audio (tts_filename_of e) (snd (voice_chat e rq w))
    = FileResponse (lit "data/audio/" ++ tts_filename_of e) (lit "audio/wav") /\
  files (snd (voice_chat e rq w)) !! (lit "data/audio/" ++ tts_filename_of e)
    = Some (synthesized e).
Proof.
  intros H Hu. destruct (reply_audio_served _ _ _ _ _ H Hu) as [-> Hf].
  split; [reflexivity|]. split; [|exact Hf].
  unfold get_audio. unfold tts_path_of in Hf. rewrite Hf.
  rewrite bool_decide_true by eauto. reflexivity.
Qed.

Lemma audio_reference_resolves_witness :
  lit "/audio/reply_20240101_000000.wav" = lit "/audio/" ++ tts_filename_of Sample.all_well /\
  get_audio (tts_filename_of Sample.all_well)
      (snd (voice_chat Sample.all_well Sample.clip Sample.nowhere))
    = FileResponse (lit "data/audio/" ++ tts_filename_of Sample.all_well) (lit "audio/wav") /\
  files (snd (voice_chat Sample.all_well Sample.clip Sample.nowhere))
      !! (lit "data/audio/" ++ tts_filename_of Sample.all_well)
    = Some (synthesized Sample.all_well).
Proof.
  apply (audio_reference_resolves Sample.all_well Sample.clip Sample.nowhere
           (ChatReply (lit "Hallo") (lit "Was willst du kaufen?")
              (Some (lit "/audio/reply_20240101_000000.wav")) (lit "shopping"))).
  - vm_compute. reflexivity.
  - reflexivity.
Defined.

(** X5.  Two requests answered within the same second are given the same
    audio file name: both answers carry the same URL, and the file behind it
    holds the audio of the second request only. *)
Theorem same_second_replies_share_the_file e1 rq1 e2 rq2 w a1 a2 u1 u2 :
  now_strftime e1 = now_strftime e2 ->
  fst (voice_chat e1 rq1 w) = Reply a1 ->
  fst (voice_chat e2 rq2 (snd (voice_chat e1 rq1 w))) = Reply a2 ->
  tts_url a1 = Some u1 ->
  tts_url a2 = Some u2 ->
  u1 = u2 /\
  files (snd (voice_chat e2 rq2 (snd (voice_chat e1 rq1 w)))) !! tts_path_of e1
    = Some (synthesized e2).
Proof.
  intros Hn H1 H2 Hu1 Hu2.
  destruct (reply_audio_served _ _ _ _ _ H1 Hu1) as [-> _].
  destruct (reply_audio_served _ _ _ _ _ H2 Hu2) as [-> Hf].
  unfold tts_path_of, tts_filename_of in *. rewrite Hn. auto.
Qed.

Lemma same_second_replies_share_the_file_witness :
  lit "/audio/reply_20240101_000000.wav" = lit "/audio/reply_20240101_000000.wav" /\
  files (snd (voice_chat same_second_other_audio Sample.clip
                (snd (voice_chat Sample.all_well Sample.clip Sample.nowhere))))
      !! tts_path_of Sample.all_well
    = Some (synthesized same_second_other_audio).
Proof.
  apply (same_second_replies_share_the_file
           Sample.all_well Sample.clip same_second_other_audio Sample.clip Sample.nowhere
           (ChatReply (lit "Hallo") (lit "Was willst du kaufen?")
              (Some (lit "/audio/reply_20240101_000000.wav")) (lit "shopping"))
           (ChatReply (lit "Hallo") (lit "Was willst du kaufen?")
              (Some (lit "/audio/reply_20240101_000000.wav")) (lit "shopping"))).
  - reflexivity.
  - vm_compute. reflexivity.
  - vm_compute. reflexivity.
  - reflexivity.
  - reflexivity.
Defined.

(** X6.  The record a 200 answer leaves in the history says what the answer
    says: same user text, reply and topic, and a file name exactly when the
    answer has a URL, the URL being "/audio/" followed by that name. *)
Theorem record_agrees_with_answer e rq w a :
  fst (voice_chat e rq w) = Reply a ->
  history_append e = None ->
  exists file,
    history (snd (voice_chat e rq w))
      = Some (records w ++
              [RecordLine (Conversation (now_isoformat e) (topic a) (user_text a)
                             (reply_text a) file)]) /\
    tts_url a = (fun f => lit "/audio/" ++ f) <$> file.
Proof.
  intros H Ha. destruct (voice_chat_reply_inv _ _ _ _ H) as (T & w2 & s & Ht & Hb & Hp & ->).
  destruct (voice_chat_answer _ _ _ _ _ _ Ht Hb Hp) as (w5 & E & H5).
  rewrite E. simpl. rewrite H5, Ha.
  unfold records. rewrite (transcribed_history _ _ _ _ _ Ht).
  exists (tts_file_of e (synthesis e rq w)). split; [reflexivity|].
  destruct (synthesis e rq w) as [[[]|ex]|]; reflexivity.
Qed.

Lemma record_agrees_with_answer_witness :
  exists file,
    history (snd (voice_chat Sample.mute Sample.clip Sample.nowhere))
      = Some (records Sample.nowhere ++
              [RecordLine (Conversation (now_isoformat Sample.mute) (lit "shopping")
                             (lit "Hallo") (lit "Was willst du kaufen?") file)]) /\
    None = (fun f => lit "/audio/" ++ f) <$> file.
Proof.
  apply (record_agrees_with_answer Sample.mute Sample.clip Sample.nowhere
           (ChatReply (lit "Hallo") (lit "Was willst du kaufen?") None (lit "shopping"))).
  - vm_compute. reflexivity.
  - reflexivity.
Defined.




(** ** The history endpoint *)

Lemma slice_from_lines {A} (limit : Z) (l : list A) :
  slice_from (- limit) l
    = if (0 <? limit)%Z then drop (length l - Z.to_nat limit) l
      else drop (Z.to_nat (- limit)) l.
Proof.
  unfold slice_from.
  destruct (Z.ltb_spec 0 limit) as [H|H].
  - destruct (Z.ltb_spec (- limit) 0) as [_|H']; [|lia]. f_equal. lia.
  - destruct (Z.ltb_spec (- limit) 0) as [H'|_]; [lia|].
    destruct (Z.le_gt_cases (- limit) (Z.of_nat (length l))) as [L|L].
    + f_equal. lia.
    + rewrite Z.min_r by lia. rewrite Nat2Z.id.
      rewrite !drop_ge; [reflexivity | lia | lia].
Qed.

(** X8.  On a history of records the history endpoint returns, for every
    integer limit, a suffix of the history in its order: the last [limit]
    records for a positive limit, the whole history for the limit zero, and
    all but the [-limit] oldest records for a negative limit. *)
Theorem history_for_every_limit (rs : list conversation) (limit : Z) (w : world) :
  records w = map RecordLine rs ->
  get_history (Some limit) w
    = Conversations (if (0 <? limit)%Z then drop (length rs - Z.to_nat limit) rs
                     else drop (Z.to_nat (- limit)) rs) /\
  exists older, rs = older ++ conversations_of (get_history (Some limit) w).
Proof.
  intros Hr.
  assert (E : get_history (Some limit) w
              = Conversations (if (0 <? limit)%Z then drop (length rs - Z.to_nat limit) rs
                               else drop (Z.to_nat (- limit)) rs)).
  { unfold get_history, get_history_for. simpl. unfold records in Hr.
    destruct (history w) as [lines|]; simpl in Hr.
    - subst lines. rewrite slice_from_lines, length_map.
      destruct (0 <? limit)%Z; rewrite drop_map_lines, load_lines_records; reflexivity.
    - destruct rs; [|discriminate]. rewrite !drop_nil. now destruct (0 <? limit)%Z. }
  split; [exact E|]. rewrite E. simpl.
  destruct (0 <? limit)%Z; eexists; symmetry; apply take_drop.
Qed.

Lemma history_for_every_limit_witness :
  get_history (Some (-1)%Z) Sample.two_talks = Conversations [Sample.second_talk] /\
  exists older,
    [Sample.first_talk; Sample.second_talk]
      = older ++ conversations_of (get_history (Some (-1)%Z) Sample.two_talks).
Proof.
  apply (history_for_every_limit [Sample.first_talk; Sample.second_talk] (-1)
           Sample.two_talks).
  reflexivity.
Defined.









(** ** ollama_client.py *)

(** X11.  [ask_ollama] changes nothing in the world, and has two outcomes
    only.  It returns a stripped text, and then the engine answered 200 with
    a string under "response".  Or it raises a plain [Exception] whose
    message reports the cause: the connection message when the request failed
    to connect, be it by a connect timeout; the timeout message for any other
    timeout; and "Ollama client error: " before the message of anything else.
    A status other than 200 is such a cause of its own, so its message is
    prefixed twice. *)
Theorem ask_ollama_outcomes e p w :
  snd (ask_ollama e p w) = w /\
  match fst (ask_ollama e p w) with
  | Ok s =>
      strip s = s /\
      exists resp s', requests_post e p = Ok resp /\ status_code resp = 200%nat /\
                      json resp = Ok (HasResponse (Ok s')) /\ s = strip s'
  | Raise ex =>
      exn_type ex = Exception /\
      exists cause,
        exn_msg ex = ollama_report cause /\
        match requests_post e p with
        | Raise c => cause = c
        | Ok resp =>
            if Nat.eqb (status_code resp) 200 then True
            else exn_msg ex =
                   lit "Ollama client error: " ++ lit "Ollama API error: "
                   ++ str_of_nat (status_code resp) ++ lit " - " ++ text resp
        end
  end.
Proof.
  split; [apply (ask_ollama_keeps (fun w => w))|].
  destruct (ask_ollama e p w) as [[s|ex] w'] eqn:E; simpl.
  - destruct (ask_ollama_ok _ _ _ _ _ E) as (resp & s' & H1 & H2 & H3 & ->).
    split; [apply strip_idempotent | eauto 6].
  - revert E. unfold ask_ollama, try_except, raise, ret.
    destruct (requests_post e p) as [resp|cause]; simpl.
    + destruct (Nat.eqb (status_code resp) 200); simpl.
      * destruct (json resp) as [[[s'|ex']|shown|ex']|ex']; simpl; try discriminate.
        -- intros E. split.
           ++ destruct (is_ConnectionError (exn_type ex')); [|destruct (is_Timeout (exn_type ex'))];
                now injection E as <- <-.
           ++ exists ex'. split; [|exact I]. unfold ollama_report.
              destruct (is_ConnectionError (exn_type ex')); [|destruct (is_Timeout (exn_type ex'))];
                now injection E as <- <-.
        -- intros [= <- <-]. split; [reflexivity|].
           now exists (Exn Exception (lit "Invalid response format: " ++ shown)).
        -- intros E. split.
           ++ destruct (is_ConnectionError (exn_type ex')); [|destruct (is_Timeout (exn_type ex'))];
                now injection E as <- <-.
           ++ exists ex'. split; [|exact I]. unfold ollama_report.
              destruct (is_ConnectionError (exn_type ex')); [|destruct (is_Timeout (exn_type ex'))];
                now injection E as <- <-.
        -- intros E. split.
           ++ destruct (is_ConnectionError (exn_type ex')); [|destruct (is_Timeout (exn_type ex'))];
                now injection E as <- <-.
           ++ exists ex'. split; [|exact I]. unfold ollama_report.
              destruct (is_ConnectionError (exn_type ex')); [|destruct (is_Timeout (exn_type ex'))];
                now injection E as <- <-.
      * intros [= <- <-]. simpl. split; [reflexivity|].
        exists (Exn Exception (lit "Ollama API error: " ++ str_of_nat (status_code resp)
                               ++ lit " - " ++ text resp)).
        split; reflexivity.
    + intros E. split.
      * destruct (is_ConnectionError (exn_type cause)); [|destruct (is_Timeout (exn_type cause))];
          now injection E as <- <-.
      * exists cause. split; [|reflexivity]. unfold ollama_report.
        destruct (is_ConnectionError (exn_type cause)); [|destruct (is_Timeout (exn_type cause))];
          now injection E as <- <-.
Qed.

(** ** tts_service.py: which engines run, and what is reported *)

Lemma new_tts_calls_app w w' l :
  tts_calls w' = tts_calls w ++ l -> new_tts_calls w w' = l.
Proof. intros H. unfold new_tts_calls. rewrite H. apply drop_app_length. Qed.

(** X12.  Without [prefer_offline], and once the output directory is there,
    [save_tts_audio] runs the networked engine first when it is installed and
    the offline engine at most once: after the networked engine failed, or in
    its place when it is not installed.  It returns exactly when the last
    engine run succeeded. *)
Theorem networked_first_without_prefer_offline e text path voice w :
  mkdir e = None ->
  let r := save_tts_audio e text path voice false w in
  new_tts_calls w (snd r)
    = (if EDGE_TTS_AVAILABLE e then
         Networked ::
         (if succeeded (edge_tts_run e) then []
          else if PYTTSX3_AVAILABLE e then [Offline] else [])
       else if PYTTSX3_AVAILABLE e then [Offline] else []) /\
  (fst r = Ok tt <->
   (if EDGE_TTS_AVAILABLE e && succeeded (edge_tts_run e) then true
    else PYTTSX3_AVAILABLE e && succeeded (pyttsx3_run e (offline_runs w))) = true).
Proof.
  intros Hm r. subst r.
  unfold save_tts_audio, make_parent_dir, bind, try_except,
    _pyttsx3_save, _edge_tts_save, write_file, print, raise, ret.
  rewrite Hm. simpl.
  destruct (EDGE_TTS_AVAILABLE e); simpl.
  - destruct (edge_tts_run e) as [ex|]; simpl.
    + destruct (PYTTSX3_AVAILABLE e); simpl.
      * repeat (rewrite offline_runs_add_stdout || rewrite offline_runs_add_tts_call).
        simpl. rewrite Nat.add_0_r.
        destruct (pyttsx3_run e (offline_runs w)); simpl;
          (split; [apply new_tts_calls_app; simpl; now rewrite <- app_assoc
                  | split; congruence]).
      * split; [now apply new_tts_calls_app | split; congruence].
    + split; [now apply new_tts_calls_app | tauto].
  - destruct (PYTTSX3_AVAILABLE e); simpl.
    + destruct (pyttsx3_run e (offline_runs w)); simpl;
        (split; [now apply new_tts_calls_app | split; congruence]).
    + split; [apply new_tts_calls_app; now rewrite app_nil_r | split; congruence].
Qed.

Lemma networked_first_without_prefer_offline_witness :
  new_tts_calls Sample.nowhere
    (snd (save_tts_audio Sample.all_well (lit "Hallo") (lit "data/audio/reply.wav")
            default_voice false Sample.nowhere))
    = [Networked].
Proof.
  destruct (networked_first_without_prefer_offline Sample.all_well (lit "Hallo")
              (lit "data/audio/reply.wav") default_voice Sample.nowhere) as [H _].
  - reflexivity.
  - rewrite H. reflexivity.
Defined.

(** X13.  What [save_tts_audio] reports when it fails.  When the output
    directory cannot be made it raises that error and runs no engine.
    Otherwise, with [prefer_offline], the error is the one of the offline
    engine's second run whenever that engine is installed, even if the
    networked engine failed too; the error of the networked engine when only
    that one is installed; and "No TTS engine available" when none is. *)
Theorem synthesis_error_reported e text path voice w ex :
  fst (save_tts_audio e text path voice true w) = Raise ex ->
  match mkdir e with
  | Some dir_error =>
      ex = dir_error /\ tts_calls (snd (save_tts_audio e text path voice true w)) = tts_calls w
  | None =>
      if PYTTSX3_AVAILABLE e then pyttsx3_run e (offline_runs w + 1) = Some ex
      else if EDGE_TTS_AVAILABLE e then edge_tts_run e = Some ex
      else ex = Exn Exception (lit "No TTS engine available")
  end.
Proof.
  unfold save_tts_audio, make_parent_dir, bind, try_except,
    _pyttsx3_save, _edge_tts_save, write_file, print, raise, ret.
  destruct (mkdir e) as [d|]; simpl.
  { intros [= <-]. auto. }
  destruct (PYTTSX3_AVAILABLE e); simpl.
  - destruct (pyttsx3_run e (offline_runs w)) as [ex0|]; simpl; [|discriminate].
    destruct (EDGE_TTS_AVAILABLE e); simpl.
    + destruct (edge_tts_run e) as [ex1|]; simpl; [|discriminate].
      repeat (rewrite offline_runs_add_stdout || rewrite offline_runs_add_tts_call).
      simpl. rewrite Nat.add_0_r.
      destruct (pyttsx3_run e (offline_runs w + 1)); simpl; [congruence | discriminate].
    + repeat (rewrite offline_runs_add_stdout || rewrite offline_runs_add_tts_call).
      simpl.
      destruct (pyttsx3_run e (offline_runs w + 1)); simpl; [congruence | discriminate].
  - destruct (EDGE_TTS_AVAILABLE e); simpl.
    + destruct (edge_tts_run e); simpl; [congruence | discriminate].
    + congruence.
Qed.

Lemma synthesis_error_reported_witness :
  pyttsx3_run every_run_fails (offline_runs Sample.nowhere + 1)
    = Some (Exn RuntimeError (lit "no audio device")).
Proof.
  apply (synthesis_error_reported every_run_fails (lit "Hallo") (lit "data/audio/reply.wav")
           default_voice Sample.nowhere (Exn RuntimeError (lit "no audio device"))).
  vm_compute. reflexivity.
Defined.

(** X14.  [is_tts_available] says that no engine is installed exactly when
    [save_tts_audio], whatever [prefer_offline], runs no engine and raises
    "No TTS engine available".  When both engines are installed it names the
    networked one, although [save_tts_audio] by default runs the offline one
    first. *)
Theorem no_engine_iff_nothing_run e :
  mkdir e = None ->
  (fst (is_tts_available e) = false <->
   forall text path voice o w,
     save_tts_audio e text path voice o w
       = (Raise (Exn Exception (lit "No TTS engine available")), w)) /\
  (PYTTSX3_AVAILABLE e = true -> EDGE_TTS_AVAILABLE e = true ->
   is_tts_available e = (true, lit "edge-tts") /\
   forall text path voice w,
     exists rest,
       new_tts_calls w (snd (save_tts_audio e text path voice true w)) = Offline :: rest).
Proof.
  intros Hm. split; [split|].
  - unfold is_tts_available. intros H text path voice o w.
    destruct (EDGE_TTS_AVAILABLE e) eqn:He; [discriminate|].
    destruct (PYTTSX3_AVAILABLE e) eqn:Hp; [discriminate|].
    unfold save_tts_audio, make_parent_dir, bind, try_except, raise, ret.
    rewrite Hm, He, Hp. now destruct o.
  - intros H. unfold is_tts_available.
    specialize (H [] [] [] false (World ∅ None [] [] [])).
    apply (f_equal (fun x => tts_calls (snd x))) in H. revert H.
    unfold save_tts_audio, make_parent_dir, bind, try_except,
      _pyttsx3_save, _edge_tts_save, write_file, print, raise, ret.
    rewrite Hm. simpl.
    destruct (EDGE_TTS_AVAILABLE e); simpl.
    + destruct (edge_tts_run e); simpl; [|discriminate].
      destruct (PYTTSX3_AVAILABLE e); simpl;
        [destruct (pyttsx3_run e _); simpl|]; discriminate.
    + destruct (PYTTSX3_AVAILABLE e); simpl; [|reflexivity].
      destruct (pyttsx3_run e _); simpl; discriminate.
  - intros Hp He. unfold is_tts_available. rewrite He. split; [reflexivity|].
    intros text path voice w.
    destruct (save_tts_audio_follows_plan e text path voice w Hm) as [Hc _].
    rewrite (new_tts_calls_app _ _ _ Hc).
    unfold synthesis_plan. rewrite Hp, He.
    destruct (pyttsx3_run e (offline_runs w)); simpl; [|eauto].
    destruct (edge_tts_run e); simpl; eauto.
Qed.

Lemma no_engine_iff_nothing_run_witness :
  save_tts_audio Sample.mute (lit "Hallo") (lit "data/audio/reply.wav") default_voice true
      Sample.nowhere
    = (Raise (Exn Exception (lit "No TTS engine available")), Sample.nowhere).
Proof.
  destruct (no_engine_iff_nothing_run Sample.mute eq_refl) as [[H _] _].
  exact (H eq_refl (lit "Hallo") (lit "data/audio/reply.wav") default_voice true Sample.nowhere).
Defined.

(** ** tts_service.py: [speak_text] *)

(** X15.  The temporary file of [_pyttsx3_synthesize].  When the engine run
    succeeds, the audio it wrote is returned, the temporary file is removed
    and no other file is touched.  When the engine run raises, so does the
    function, and the temporary file, empty, is left behind. *)
Theorem offline_synthesis_temp_file e se text w tp :
  temp_file se (offline_runs w) = Ok tp ->
  match pyttsx3_run e (offline_runs w) with
  | None =>
      fst (_pyttsx3_synthesize e se text w) = Ok (synthesized e) /\
      files (snd (_pyttsx3_synthesize e se text w)) !! tp = None /\
      forall q, q <> tp ->
        files (snd (_pyttsx3_synthesize e se text w)) !! q = files w !! q
  | Some ex =>
      fst (_pyttsx3_synthesize e se text w) = Raise ex /\
      files (snd (_pyttsx3_synthesize e se text w)) !! tp = Some []
  end.
Proof.
  intros Ht. unfold _pyttsx3_synthesize. rewrite Ht.
  unfold bind, write_file, _pyttsx3_save, read_file, unlink_missing_ok, ret. simpl.
  change (offline_runs (set_files (<[tp:=[]]> (files w)) w)) with (offline_runs w).
  destruct (pyttsx3_run e (offline_runs w)) as [ex|]; simpl.
  - split; [reflexivity | apply lookup_insert_eq].
  - rewrite lookup_insert_eq. simpl.
    split; [reflexivity|]. split; [apply lookup_delete_eq|].
    intros q Hq. rewrite lookup_delete_ne by congruence.
    rewrite !lookup_insert_ne by congruence. reflexivity.
Qed.

Lemma offline_synthesis_temp_file_witness :
  fst (_pyttsx3_synthesize every_run_fails speaking (lit "Hallo") Sample.nowhere)
    = Raise (Exn RuntimeError (lit "run loop already started")) /\
  files (snd (_pyttsx3_synthesize every_run_fails speaking (lit "Hallo") Sample.nowhere))
      !! (lit "/tmp/tmpq7w2.wav" ++ str_of_nat 0)
    = Some [].
Proof.
  apply (offline_synthesis_temp_file every_run_fails speaking (lit "Hallo") Sample.nowhere
           (lit "/tmp/tmpq7w2.wav" ++ str_of_nat 0)).
  reflexivity.
Defined.

Lemma collect_from acc chunks :
  fold_left
    (fun audio_data ch =>
       if bool_decide (chunk_type ch = lit "audio") then audio_data ++ chunk_data ch
       else audio_data)
    chunks acc
  = acc ++ audio_of chunks.
Proof.
  revert acc. induction chunks as [|ch chunks IH]; intros acc; simpl.
  - unfold audio_of. simpl. now rewrite app_nil_r.
  - rewrite IH. unfold audio_of. simpl.
    destruct (bool_decide (chunk_type ch = lit "audio")); simpl;
      [now rewrite app_assoc | reflexivity].
Qed.

Lemma collect_audio_of chunks : collect_audio chunks = audio_of chunks.
Proof. unfold collect_audio. now rewrite collect_from. Qed.

Lemma _pyttsx3_synthesize_ok e se text w data :
  fst (_pyttsx3_synthesize e se text w) = Ok data -> data = synthesized e.
Proof.
  unfold _pyttsx3_synthesize.
  destruct (temp_file se (offline_runs w)) as [tp|ex]; [|discriminate].
  unfold bind, write_file, _pyttsx3_save, read_file, unlink_missing_ok, ret. simpl.
  destruct (pyttsx3_run e _); simpl; [discriminate|].
  rewrite lookup_insert_eq. simpl. congruence.
Qed.

(** X16.  The bytes [speak_text] returns are the audio the offline engine
    wrote, or the data of the audio items of the networked stream joined in
    their order, other items being ignored.  Without [prefer_offline], a
    networked stream that ends without an error is a success whatever it
    held: with no audio item in it, the empty bytes are returned and the
    offline engine is not tried. *)
Theorem speak_text_audio e se text voice o w :
  (forall data,
     fst (speak_text e se text voice o w) = Ok data ->
     data = synthesized e \/
     (EDGE_TTS_AVAILABLE e = true /\ edge_stream_error se = None /\
      data = audio_of (edge_stream se))) /\
  (o = false -> EDGE_TTS_AVAILABLE e = true -> edge_stream_error se = None ->
   fst (speak_text e se text voice o w) = Ok (audio_of (edge_stream se)) /\
   new_tts_calls w (snd (speak_text e se text voice o w)) = [Networked]).
Proof.
  split.
  - intros data. unfold speak_text, bind at 1.
    destruct (o && PYTTSX3_AVAILABLE e) eqn:Ho.
    + unfold try_except, bind at 1.
      destruct (_pyttsx3_synthesize e se text w) as [[a|ex] w1] eqn:E1; simpl.
      * intros [= <-]. left.
        apply (_pyttsx3_synthesize_ok e se text w). now rewrite E1.
      * unfold bind, print, ret. simpl.
        destruct (EDGE_TTS_AVAILABLE e) eqn:He.
        -- unfold _edge_tts_synthesize.
           destruct (edge_stream_error se) as [ex'|] eqn:Hs; simpl.
           ++ destruct (PYTTSX3_AVAILABLE e).
              ** intros H. left. eapply _pyttsx3_synthesize_ok.
                 match goal with
                 | H : fst (_pyttsx3_synthesize e se text ?x) = _ |- _ => exact H
                 end.
              ** discriminate.
           ++ intros [= <-]. right. rewrite collect_audio_of. auto.
        -- destruct (PYTTSX3_AVAILABLE e); [|discriminate].
           intros H. left. eapply _pyttsx3_synthesize_ok. exact H.
    + unfold ret at 1. cbv beta iota.
      destruct (EDGE_TTS_AVAILABLE e) eqn:He.
      * unfold try_except, _edge_tts_synthesize.
        destruct (edge_stream_error se) as [ex'|] eqn:Hs; simpl.
        -- unfold bind, print. simpl. destruct (PYTTSX3_AVAILABLE e).
           ++ intros H. left. eapply _pyttsx3_synthesize_ok. exact H.
           ++ discriminate.
        -- intros [= <-]. right. rewrite collect_audio_of. auto.
      * destruct (PYTTSX3_AVAILABLE e); [|discriminate].
        intros H. left. eapply _pyttsx3_synthesize_ok. exact H.
  - intros -> He Hs.
    unfold speak_text, bind, try_except, _edge_tts_synthesize, ret. simpl.
    rewrite He, Hs. simpl. rewrite collect_audio_of.
    split; [reflexivity | now apply new_tts_calls_app].
Qed.

Lemma speak_text_audio_witness :
  fst (speak_text Sample.all_well speaking (lit "Hallo") default_voice false Sample.nowhere)
    = Ok [1; 2; 3] /\
  new_tts_calls Sample.nowhere
    (snd (speak_text Sample.all_well speaking (lit "Hallo") default_voice false Sample.nowhere))
    = [Networked].
Proof.
  destruct (speak_text_audio Sample.all_well speaking (lit "Hallo") default_voice false
              Sample.nowhere) as [_ H].
  destruct H as [H1 H2]; try reflexivity.
  split; [rewrite H1; vm_compute; reflexivity | exact H2].
Defined.

(** ** ollama_client.py: the list of models *)

Lemma model_names_ok entries names :
  model_names entries = Ok names <-> entries = map Ok names.
Proof.
  revert names. induction entries as [|[name|ex] entries IH]; intros names; simpl.
  - split; [intros [= <-]; reflexivity | destruct names; [reflexivity | discriminate]].
  - destruct (model_names entries) as [ns|ex] eqn:E.
    + split.
      * intros [= <-]. simpl. f_equal. now apply IH.
      * destruct names as [|n ns']; [discriminate|]. simpl. intros [= -> H].
        apply IH in H. now injection H as ->.
    + split; [discriminate|].
      destruct names as [|n ns']; [discriminate|]. simpl. intros [= -> H].
      apply IH in H. discriminate.
  - split; [discriminate|]. destruct names; discriminate.
Qed.

(** The comprehension stops at the first model without a name. *)
Lemma model_names_first_error names ex rest :
  model_names (map Ok names ++ Raise ex :: rest) = Raise ex.
Proof. induction names as [|n names IH]; simpl; [reflexivity | now rewrite IH]. Qed.

(** X17.  [list_ollama_models] never raises, and what it returns is settled
    by the engine's answer to the request for its models, made with a timeout
    of ten seconds.  A 200 without the "models" key gives the empty list, and
    a 200 whose models all have a name gives these names in the order of the
    answer; nothing is printed then.  Everything else gives the list of the
    single name "mistral", after a warning with the message of what went
    wrong: the exception of the request, "Failed to get models: " and the
    status for another status, the exception of decoding the body or of
    looking into it, and that of the first model without a name. *)
Theorem list_ollama_models_outcomes oe w :
  (exists names w', list_ollama_models oe w = (Ok names, w')) /\
  (forall ex, requests_get oe 10 = Raise ex ->
     list_ollama_models oe w = default_model_after ex w) /\
  (forall r, requests_get oe 10 = Ok r ->
     (tags_status r <> 200%nat ->
      list_ollama_models oe w =
        default_model_after
          (Exn Exception (lit "Failed to get models: " ++ str_of_nat (tags_status r))) w) /\
     (tags_status r = 200%nat ->
      (tags_json r = Ok NoModelsKey -> list_ollama_models oe w = (Ok [], w)) /\
      (forall names, tags_json r = Ok (Models (map Ok names)) ->
         list_ollama_models oe w = (Ok names, w)) /\
      (forall names ex rest,
         tags_json r = Ok (Models (map Ok names ++ Raise ex :: rest)) ->
         list_ollama_models oe w = default_model_after ex w) /\
      (forall ex, tags_json r = Ok (BadPayload ex) \/ tags_json r = Raise ex ->
         list_ollama_models oe w = default_model_after ex w))).
Proof.
  unfold default_model_after, list_ollama_models, try_except, bind, print, raise, ret.
  split.
  { destruct (requests_get oe 10) as [r|ex]; simpl; [|eauto].
    destruct (negb (tags_status r =? 200)%nat); simpl; [eauto|].
    destruct (tags_json r) as [[|entries|ex]|ex]; simpl; eauto.
    destruct (model_names entries); simpl; eauto. }
  split.
  { intros ex ->. reflexivity. }
  intros r ->. split.
  { intros Hs. apply Nat.eqb_neq in Hs. now rewrite Hs. }
  intros ->. simpl. split; [now intros ->|]. split; [|split].
  - intros names ->.
    now rewrite (proj2 (model_names_ok (map Ok names) names) eq_refl).
  - intros names ex rest ->. now rewrite model_names_first_error.
  - now intros ex [-> | ->].
Qed.

(** ** whisper_service.py: the availability check *)

Lemma transcribe_audio_without_library e p w ex :
  import_whisper e = Some ex -> fst (transcribe_audio e p w) = Ok [].
Proof.
  intros Hi. rewrite transcribe_audio_by_library.
  unfold _transcribe_with_library, try_except, bind, run_import_whisper, raise.
  rewrite Hi. simpl. now destruct (is_ImportError (exn_type ex)).
Qed.

(** X18.  [is_whisper_available] and [transcribe_audio] agree in one
    direction only.  When the check reports that nothing is available, every
    transcription returns the empty string.  But the check reports "cli" as
    soon as [whisper --help] returns 0, whether or not the library can be
    imported, while [transcribe_audio] uses the library alone: with the
    command installed and the library missing, the check says available and
    every transcription still returns the empty string. *)
Theorem availability_check_and_transcription cli e :
  (forall w, fst (is_whisper_available cli e w) = Ok (false, lit "none") ->
             forall p w', fst (transcribe_audio e p w') = Ok []) /\
  (cli = Ok 0%nat ->
   forall ex, import_whisper e = Some ex ->
     (forall w, fst (is_whisper_available cli e w) = Ok (true, lit "cli")) /\
     (forall p w', fst (transcribe_audio e p w') = Ok [])).
Proof.
  split.
  - intros w H p w'. unfold is_whisper_available in H.
    destruct (import_whisper e) as [ex|] eqn:Hi.
    + now apply (transcribe_audio_without_library e p w' ex).
    + destruct cli as [[|n]|c]; discriminate.
  - intros -> ex Hi. split; [reflexivity|].
    intros p w'. now apply (transcribe_audio_without_library e p w' ex).
Qed.

Lemma availability_check_and_transcription_witness :
  fst (is_whisper_available (Ok 0%nat) Sample.whisper_missing Sample.nowhere)
    = Ok (true, lit "cli") /\
  fst (transcribe_audio Sample.whisper_missing Sample.scratch Sample.nowhere) = Ok [].
Proof.
  destruct (availability_check_and_transcription (Ok 0%nat) Sample.whisper_missing)
    as [_ H].
  destruct (H eq_refl (Exn ModuleNotFoundError (lit "No module named 'whisper'")) eq_refl)
    as [H1 H2].
  split; [apply H1 | apply H2].
Defined.

(** ** ui/streamlit_app.py: the history column *)

Lemma get_history_default (rs : list conversation) (w : world) :
  records w = map RecordLine rs ->
  get_history None w = Conversations (drop (length rs - 10) rs).
Proof.
  intros Hr. unfold get_history, get_history_for. simpl. unfold records in Hr.
  destruct (history w) as [lines|]; simpl in Hr.
  - subst lines. rewrite slice_from_last by lia.
    rewrite length_map, drop_map_lines, load_lines_records. reflexivity.
  - destruct rs; [|discriminate]. reflexivity.
Qed.

Lemma slice_from_last_five {A} (l : list A) : slice_from (-5) l = drop (length l - 5) l.
Proof. exact (slice_from_last 5 l ltac:(lia)). Qed.

(** The column for a history fetched: the newest conversation first, five at
    most, each under its place in the list fetched. *)
Lemma history_column_entry (h : list conversation) j conv :
  (j < 5)%nat -> (j < length h)%nat ->
  h !! (length h - 1 - j)%nat = Some conv ->
  history_column h !! j = Some (chat_entry (length h - j) conv).
Proof.
  intros H5 Hj Hc. unfold history_column.
  destruct h as [|c0 h0] eqn:Eh; [simpl in Hj; lia|]. rewrite <- Eh in *.
  change (imap _ ?l) with (imap (fun i conv => chat_entry (length h - i) conv) l).
  rewrite list_lookup_imap.
  rewrite slice_from_last_five.
  rewrite reverse_lookup by (rewrite length_drop; lia).
  rewrite lookup_drop, length_drop.
  replace (length h - 5 + (length h - (length h - 5) - S j))%nat
    with (length h - 1 - j)%nat by lia.
  rewrite Hc. reflexivity.
Qed.

(** X19.  The history column of the page, on a backend whose history holds
    [n] records and answers: it shows the last five conversations of the
    history, fewer if there are fewer, the newest first.  The number in the
    label of a conversation is its place among the ten the page fetched, not
    its place in the history: the newest is "Chat 10" as soon as the history
    holds ten or more. *)
Theorem history_column_numbers ue (rs : list conversation) (w : world) j conv :
  records w = map RecordLine rs ->
  get_error ue = None ->
  (j < 5)%nat -> (j < length rs)%nat ->
  rs !! (length rs - 1 - j)%nat = Some conv ->
  history_column (get_conversation_history ue w) !! j
    = Some (chat_entry (Nat.min 10 (length rs) - j) conv) /\
  length (history_column (get_conversation_history ue w)) = Nat.min 5 (length rs).
Proof.
  intros Hr Hg H5 Hj Hc.
  unfold get_conversation_history. rewrite Hg, (get_history_default rs w Hr).
  cbv [status_of conversations_of]. rewrite Nat.eqb_refl.
  set (h := drop (length rs - 10) rs).
  assert (Lh : length h = Nat.min 10 (length rs)) by (subst h; rewrite length_drop; lia).
  split.
  - rewrite <- Lh. apply history_column_entry; [exact H5 | lia |].
    subst h. rewrite lookup_drop, length_drop.
    rewrite <- Hc. f_equal. lia.
  - unfold history_column. clearbody h.
    destruct h as [|c0 h0] eqn:Eh; [exfalso; cbn [length] in Lh; lia|]. rewrite <- Eh in *.
    rewrite length_imap, length_reverse, slice_from_last_five.
    rewrite length_drop. lia.
Qed.

Lemma history_column_numbers_witness :
  history_column
      (get_conversation_history answering (World ∅ (Some (map RecordLine twelve_talks)) [] [] []))
      !! 0%nat
    = Some (chat_entry (Nat.min 10 (length twelve_talks) - 0)
              (Conversation (str_of_nat 12) (lit "shopping") (lit "Brot") (lit "Wie viel?") None)) /\
  length (history_column
            (get_conversation_history answering
               (World ∅ (Some (map RecordLine twelve_talks)) [] [] [])))
    = Nat.min 5 (length twelve_talks).
Proof.
  apply (history_column_numbers answering twelve_talks
           (World ∅ (Some (map RecordLine twelve_talks)) [] [] []) 0).
  - reflexivity.
  - reflexivity.
  - lia.
  - vm_compute. lia.
  - reflexivity.
Defined.

(** ** ui/streamlit_app.py: the button "Send to Tutor" *)

(** The backend answers 200 with a reply and nothing else. *)
Lemma voice_chat_200_is_reply e rq w :
  status_of (fst (voice_chat e rq w)) = 200%nat ->
  exists a, fst (voice_chat e rq w) = Reply a.
Proof.
  destruct (transcribed e rq w) as [[T w2]|] eqn:Ht.
  - destruct (truthy (strip T)) eqn:Hb.
    + destruct (fst (read_system_prompt e w2)) as [s|ex] eqn:Hp.
      * destruct (voice_chat_answer _ _ _ _ _ _ Ht Hb Hp) as (w5 & E & _).
        rewrite E. simpl. eauto.
      * destruct (voice_chat_no_prompt _ _ _ _ _ _ Ht Hb Hp) as [_ E]. rewrite E.
        simpl. discriminate.
    + rewrite (voice_chat_blank _ _ _ _ _ Ht Hb). simpl. discriminate.
  - destruct (transcribed_None _ _ _ Ht) as (ex & w1 & Hr).
    destruct (voice_chat_raise _ _ _ _ _ Hr) as [_ E]. rewrite E. simpl. discriminate.
Qed.

(** X20.  When the recording was written and the backend's answer, a reply,
    came back, the page shows, after what it showed before: the transcript
    as "what you said", the reply, and a player whose source is the backend's
    address followed by [tts_url] as text.  The player is shown whether or
    not there is audio: for a null [tts_url] its source is
    "http://127.0.0.1:8000None". *)
Theorem page_shows_the_answer ue e recording topic u w tp a :
  ui_temp_file ue = Ok tp ->
  ui_temp_write ue = None ->
  post_error ue = None ->
  fst (voice_chat e (request_of tp recording topic) w) = Reply a ->
  page_after (on_send ue e recording topic u w)
    = page u ++
      [st_success (lit "Got response from tutor!");
       st_markdown (lit "**What you said:**");
       st_info (user_text a);
       st_markdown (lit "**Tutor's response:**");
       st_success (reply_text a);
       st_audio (BACKEND_URL ++ show_opt (tts_url a)) (lit "audio/wav")]
      ++ match st_audio_error ue with
         | None => []
         | Some ex => [st_warning (lit "Could not play audio: " ++ exn_msg ex)]
         end /\
  snd (on_send ue e recording topic u w) = snd (voice_chat e (request_of tp recording topic) w) /\
  (tts_url a = None ->
   In (st_audio (lit "http://127.0.0.1:8000None") (lit "audio/wav"))
      (page_after (on_send ue e recording topic u w))).
Proof.
  intros Ht Hw Hp Ha.
  assert (E : page_after (on_send ue e recording topic u w)
    = page u ++
      [st_success (lit "Got response from tutor!");
       st_markdown (lit "**What you said:**");
       st_info (user_text a);
       st_markdown (lit "**Tutor's response:**");
       st_success (reply_text a);
       st_audio (BACKEND_URL ++ show_opt (tts_url a)) (lit "audio/wav")]
      ++ match st_audio_error ue with
         | None => []
         | Some ex => [st_warning (lit "Could not play audio: " ++ exn_msg ex)]
         end /\
    snd (on_send ue e recording topic u w)
      = snd (voice_chat e (request_of tp recording topic) w)).
  { unfold page_after, on_send, send_voice_chat. rewrite Ht, Hw, Hp.
    fold (request_of tp recording topic).
    destruct (voice_chat e (request_of tp recording topic) w) as [r w'] eqn:Ev.
    simpl in Ha. subst r. cbv [status_of]. rewrite Nat.eqb_refl.
    unfold show_result, show. cbn [page ui_files].
    destruct (st_audio_error ue); cbn [fst snd page ui_files];
      rewrite <- ?app_assoc; split; reflexivity. }
  destruct E as [E1 E2]. split; [exact E1|]. split; [exact E2|].
  intros Hn. rewrite E1, Hn. apply in_or_app. right. apply in_or_app. left.
  simpl. do 5 right. left. vm_compute. reflexivity.
Qed.

Lemma page_shows_the_answer_witness :
  In (st_audio (lit "http://127.0.0.1:8000None") (lit "audio/wav"))
     (page_after (on_send answering Sample.mute [82; 73; 70; 70] (lit "shopping")
                    (Ui ∅ []) Sample.nowhere)).
Proof.
  destruct (page_shows_the_answer answering Sample.mute [82; 73; 70; 70] (lit "shopping")
              (Ui ∅ []) Sample.nowhere (lit "/tmp/tmpu1.wav")
              (ChatReply (lit "Hallo") (lit "Was willst du kaufen?") None (lit "shopping")))
    as (_ & _ & H).
  - reflexivity.
  - reflexivity.
  - reflexivity.
  - vm_compute. reflexivity.
  - apply H. reflexivity.
Defined.

(** X21.  The temporary file of the recording.  Once the recording is
    written, the file is gone when the button has been handled, whatever
    happened to the request: no connection, no answer in time, an error
    answer or a reply.  When the recording cannot be written, the handler
    raises before anything is sent, and the file, empty, stays. *)
Theorem recording_file_removed ue e recording topic u w tp :
  ui_temp_file ue = Ok tp ->
  match ui_temp_write ue with
  | None => files_after (on_send ue e recording topic u w) !! tp = None
  | Some ex =>
      on_send ue e recording topic u w
        = (Raise ex, Ui (<[tp := []]> (ui_files u)) (page u), w) /\
      files_after (on_send ue e recording topic u w) !! tp = Some []
  end.
Proof.
  intros Ht. unfold files_after, on_send. rewrite Ht.
  destruct (ui_temp_write ue) as [ex|].
  - split; [reflexivity | apply lookup_insert_eq].
  - destruct (send_voice_chat ue e tp recording topic _ w) as [[answer u1] w1].
    destruct (show_result ue answer u1) as [outcome u2].
    cbn [fst snd ui_files]. apply lookup_delete_eq.
Qed.

Lemma recording_file_removed_witness :
  files_after (on_send answering Sample.whisper_missing [82; 73; 70; 70] (lit "shopping")
                 (Ui ∅ []) Sample.nowhere) !! lit "/tmp/tmpu1.wav" = None.
Proof.
  apply (recording_file_removed answering Sample.whisper_missing [82; 73; 70; 70]
           (lit "shopping") (Ui ∅ []) Sample.nowhere (lit "/tmp/tmpu1.wav")).
  reflexivity.
Defined.

(** X22.  What the page shows when no reply comes back.  It adds one error
    message and nothing else.  For an answer of the backend that is not a
    200, which is then a 400 or a 500, the message holds the status and the
    body as sent.  When the request raised, the message is chosen by the
    kind of the exception; then the backend may have handled the request all
    the same, so that a conversation can be in the history that the page
    never showed. *)
Theorem page_shows_one_error ue e recording topic u w tp :
  ui_temp_file ue = Ok tp ->
  ui_temp_write ue = None ->
  let rq := request_of tp recording topic in
  match post_error ue with
  | None =>
      status_of (fst (voice_chat e rq w)) <> 200%nat ->
      (status_of (fst (voice_chat e rq w)) = 400%nat \/
       status_of (fst (voice_chat e rq w)) = 500%nat) /\
      page_after (on_send ue e recording topic u w)
        = page u ++
          [st_error (lit "Backend error: " ++ str_of_nat (status_of (fst (voice_chat e rq w)))
                     ++ lit " - " ++ response_text ue (fst (voice_chat e rq w)))]
  | Some (ex, handled) =>
      page_after (on_send ue e recording topic u w)
        = page u ++
          [st_error
             (if is_ConnectionError (exn_type ex) then
                lit "Cannot connect to backend. Make sure it's running on http://127.0.0.1:8000"
              else if is_Timeout (exn_type ex) then
                lit "Request timed out. Try again with a shorter audio clip."
              else lit "Error: " ++ exn_msg ex)] /\
      snd (on_send ue e recording topic u w)
        = (if handled then snd (voice_chat e rq w) else w)
  end.
Proof.
  intros Ht Hw rq. unfold page_after, on_send, send_voice_chat. rewrite Ht, Hw.
  fold (request_of tp recording topic). fold rq.
  destruct (post_error ue) as [[ex handled]|].
  - destruct (is_ConnectionError (exn_type ex)); [|destruct (is_Timeout (exn_type ex))];
      split; reflexivity.
  - intros Hs. split.
    + destruct (transcribed e rq w) as [[T w2]|] eqn:Hx.
      * destruct (truthy (strip T)) eqn:Hb.
        -- destruct (fst (read_system_prompt e w2)) as [s|ex] eqn:Hp.
           ++ destruct (voice_chat_answer _ _ _ _ _ _ Hx Hb Hp) as (w5 & E & _).
              rewrite E in Hs. now destruct Hs.
           ++ destruct (voice_chat_no_prompt _ _ _ _ _ _ Hx Hb Hp) as [_ E]. rewrite E.
              now right.
        -- rewrite (voice_chat_blank _ _ _ _ _ Hx Hb). now left.
      * destruct (transcribed_None _ _ _ Hx) as (ex & w1 & Hr).
        destruct (voice_chat_raise _ _ _ _ _ Hr) as [_ E]. rewrite E. now right.
    + destruct (voice_chat e rq w) as [r w'] eqn:Ev. cbn [fst] in Hs |- *.
      destruct (Nat.eqb_spec (status_of r) 200) as [H|_]; [contradiction|].
      reflexivity.
Qed.

Lemma page_shows_one_error_witness :
  page_after (on_send gave_up_waiting Sample.all_well [82; 73; 70; 70] (lit "shopping")
                (Ui ∅ []) Sample.nowhere)
    = [st_error (lit "Request timed out. Try again with a shorter audio clip.")] /\
  records (snd (on_send gave_up_waiting Sample.all_well [82; 73; 70; 70] (lit "shopping")
                  (Ui ∅ []) Sample.nowhere))
    = [RecordLine (Sample.hallo_record (lit "Was willst du kaufen?")
                     (Some (lit "reply_20240101_000000.wav")))].
Proof.
  pose proof (page_shows_one_error gave_up_waiting Sample.all_well [82; 73; 70; 70]
                (lit "shopping") (Ui ∅ []) Sample.nowhere (lit "/tmp/tmpu1.wav")
                eq_refl eq_refl) as H.
  cbv zeta in H. change (post_error gave_up_waiting)
    with (Some (Exn ReadTimeout (lit "Read timed out. (read timeout=30)"), true)) in H.
  destruct H as [H1 H2]. split.
  - rewrite H1. reflexivity.
  - rewrite H2. vm_compute. reflexivity.
Defined.
